(** * Token verification and on-behalf-of exchange: a shallow embedding

    The two servers of the repository are embedded as Rocq functions:

    - [Opaque]  : [src/server.py], the claims-only [GraphTokenVerifier];
    - [Obo]     : [src/example-obo/server.py], the [AzureJWTVerifier] with its
                  scope prefixing, the on-behalf-of exchange and the shared
                  Graph client handle.

    Python values are an inductive type, a [dict] is a [gmap] with string
    keys, a [set] of strings is a [gset], and a call that may raise returns
    an [outcome].  The current time is an explicit argument.  Calls into
    third-party packages (PyJWT, fastmcp, msal) are modelled in the modules
    [PyJWT] and [JWTVerifier] or taken as section variables; each such
    definition says so. *)

From Stdlib Require Import ZArith QArith Qround Ascii.
From stdpp Require Import base gmap strings list pretty.

(** ** Python values *)

(** A [float]: a finite value, here a rational, or one of the three
    special values, which [json.loads] reads from [Infinity], [-Infinity]
    and [NaN]. *)
Inductive pyfloat : Type :=
| Finite (q : Q)
| Infinity
| NegInfinity
| NaN.

(** The values [json.loads] produces.  A JSON number without fraction and
    exponent is an [int], any other a [float]; a [str] is a sequence of
    code points below 256. *)
#[warnings="-register-all"]
Inductive pyval : Type :=
| PyNone
| PyBool (b : bool)
| PyInt (n : Z)
| PyStr (s : string)
| PyList (items : list pyval)
| PyDict (entries : list (string * pyval))
| PyFloat (x : pyfloat).

(** Truth value testing, as [if v:] and [v or w] perform it. *)
Definition truthy (v : pyval) : bool :=
  match v with
  | PyNone => false
  | PyBool b => b
  | PyInt n => negb (n =? 0)%Z
  | PyStr s => negb (String.eqb s "")
  | PyList items => match items with [] => false | _ => true end
  | PyDict entries => match entries with [] => false | _ => true end
  | PyFloat (Finite q) => negb (Qeq_bool q 0)
  | PyFloat _ => true
  end.

(** [a or b] *)
Definition py_or (a b : pyval) : pyval := if truthy a then a else b.

(** [isinstance(v, str)] *)
Definition is_str (v : pyval) : bool :=
  match v with PyStr _ => true | _ => false end.

(** [str(v)] and the [{v}] of an f-string.  The [repr] of a list, a dict or
    a float is a parameter of the development. *)
Definition py_str (repr_container : pyval → string) (v : pyval) : string :=
  match v with
  | PyNone => "None"
  | PyBool true => "True"
  | PyBool false => "False"
  | PyInt n => pretty n
  | PyStr s => s
  | PyList _ | PyDict _ | PyFloat _ => repr_container v
  end.

(** A [dict] keyed by strings. *)
Abbreviation dict := (gmap string pyval).

(** [d.get(k)] *)
Definition dict_get (d : dict) (k : string) : pyval := default PyNone (d !! k).

(** [d.get(k, dflt)] *)
Definition dict_get_default (d : dict) (k : string) (dflt : pyval) : pyval :=
  default dflt (d !! k).

(** [k in d] *)
Definition dict_contains (k : string) (d : dict) : bool :=
  bool_decide (is_Some (d !! k)).

(** ** Exceptions and outcomes *)

Inductive exn : Type :=
(* subclasses of [jwt.PyJWTError] *)
| DecodeError
| MissingRequiredClaimError (claim : string)
| ExpiredSignatureError
| InvalidIssuerError
| InvalidAudienceError
(* built-in exceptions *)
| ValueError
| TypeError
| AttributeError
| KeyError (key : string)
| RuntimeError (msg : string)
| OverflowError
(* [pydantic.ValidationError] *)
| ValidationError.

(** [isinstance(e, jwt.PyJWTError)] *)
Definition is_PyJWTError (e : exn) : bool :=
  match e with
  | DecodeError | MissingRequiredClaimError _ | ExpiredSignatureError
  | InvalidIssuerError | InvalidAudienceError => true
  | _ => false
  end.

(** The result of a call: a returned value or a raised exception. *)
Inductive outcome (A : Type) : Type :=
| Returns (a : A)
| Raises (e : exn).
Arguments Returns {A} a.
Arguments Raises {A} e.

#[global] Instance outcome_ret : MRet outcome := λ A a, Returns a.
#[global] Instance outcome_bind : MBind outcome := λ A B f m,
  match m with
  | Returns a => f a
  | Raises e => Raises e
  end.

(** [d[k]] *)
Definition dict_getitem (d : dict) (k : string) : outcome pyval :=
  match d !! k with
  | Some v => Returns v
  | None => Raises (KeyError k)
  end.

(** ** Strings *)

(** [str.isspace] on one character (code points below 256). *)
Definition is_space (c : Ascii.ascii) : bool :=
  let n := Ascii.nat_of_ascii c in
  ((9 <=? n) && (n <=? 13)) || ((28 <=? n) && (n <=? 32))
  || (n =? 133) || (n =? 160).

Definition flush_word (w : string) : list string :=
  match w with
  | EmptyString => []
  | _ => [w]
  end.

(** The words of [s], [w] being the word read so far. *)
Fixpoint words_from (w s : string) : list string :=
  match s with
  | EmptyString => flush_word w
  | String c rest =>
      if is_space c then flush_word w ++ words_from "" rest
      else words_from (w +:+ String c "") rest
  end.

(** [s.split()]: the maximal runs of non-whitespace characters. *)
Definition str_split (s : string) : list string := words_from "" s.

(** [v.split()] for a value taken from a dict: only a [str] has the method. *)
Definition py_split (v : pyval) : outcome (list string) :=
  match v with
  | PyStr s => Returns (str_split s)
  | _ => Raises AttributeError
  end.

(** ["/" in s] *)
Fixpoint has_slash (s : string) : bool :=
  match s with
  | EmptyString => false
  | String c rest => Ascii.eqb c "/"%char || has_slash rest
  end.

(** ** The access token handed to the server *)

(** The arguments given to the [AccessToken] constructor, a pydantic
    model with the fields [token: str], [client_id: str],
    [scopes: list[str]], [expires_at: int | None] and
    [claims: dict[str, Any]]. *)
Record AccessToken : Type := {
  token : string;
  client_id : pyval;
  scopes : list string;
  expires_at : pyval;
  claims : dict
}.

(** [int(x)] on a finite float: the value truncated towards zero. *)
Definition float_trunc (q : Q) : Z :=
  if Qle_bool 0 q then Qfloor q else Qceiling q.

(** The float has no fractional part. *)
Definition float_integral (q : Q) : bool :=
  Qeq_bool (inject_Z (Qfloor q)) q.

(** pydantic takes the value for a field [int | None]: [None], an [int], a
    [bool], a finite [float] without fractional part, or a string it reads
    as an integer ([int_str_ok], a library parameter). *)
Definition valid_optional_int (int_str_ok : string → bool) (v : pyval)
  : bool :=
  match v with
  | PyNone | PyInt _ | PyBool _ => true
  | PyFloat (Finite q) => float_integral q
  | PyFloat _ => false
  | PyStr s => int_str_ok s
  | PyList _ | PyDict _ => false
  end.

(** [AccessToken(token=..., client_id=..., scopes=..., expires_at=...,
    claims=...)]: pydantic raises [ValidationError] unless [client_id] is
    a [str] and [expires_at] fits [int | None]; the other arguments are of
    the types their fields ask for. *)
Definition AccessToken_init (int_str_ok : string → bool) (token : string)
    (client_id : pyval) (scopes : list string) (expires_at : pyval)
    (claims : dict) : outcome AccessToken :=
  if is_str client_id && valid_optional_int int_str_ok expires_at then
    Returns {| token := token;
               client_id := client_id;
               scopes := scopes;
               expires_at := expires_at;
               claims := claims |}
  else Raises ValidationError.

(** ** PyJWT: [jwt.decode] with signature verification switched off *)

Module PyJWT.
Section Decode.

(** Library parameter: the compact serialisation read without verifying
    the signature, i.e. the payload segment base64-decoded and parsed as a
    JSON object.  [None] stands for the [DecodeError] PyJWT raises when
    the token is not three well-formed segments or the payload is not an
    object.  The parameter covers the tokens on which the parser finishes;
    a payload nested so deeply that [json.loads] gives up with
    [RecursionError] is outside of it. *)
Variable jws_payload : string → option dict.

(** Library parameter: [int(s)] on a [str]; [None] stands for
    [ValueError]. *)
Variable int_of_str : string → option Z.

(** The [options] dictionary of the call, as far as claims are
    concerned. *)
Record options : Type := {
  verify_exp : bool;
  verify_aud : bool;
  verify_iss : bool;
  require : list string
}.

(** [int(v)] *)
Definition py_int (v : pyval) : outcome Z :=
  match v with
  | PyInt n => Returns n
  | PyBool b => Returns (if b then 1 else 0)%Z
  | PyStr s =>
      match int_of_str s with
      | Some n => Returns n
      | None => Raises ValueError
      end
  | PyFloat (Finite q) => Returns (float_trunc q)
  | PyFloat Infinity | PyFloat NegInfinity => Raises OverflowError
  | PyFloat NaN => Raises ValueError
  | PyNone | PyList _ | PyDict _ => Raises TypeError
  end.

(** Every claim listed under [require] is present and not [None]. *)
Fixpoint validate_required_claims (payload : dict) (required : list string)
  : outcome unit :=
  match required with
  | [] => Returns tt
  | claim :: rest =>
      match dict_get payload claim with
      | PyNone => Raises (MissingRequiredClaimError claim)
      | _ => validate_required_claims payload rest
      end
  end.

(** [exp] is read with [int]; a [ValueError] becomes [DecodeError]; the
    token is expired when [exp <= now - leeway], the leeway being the
    default 0. *)
Definition validate_exp (payload : dict) (now : Q) : outcome unit :=
  v ← dict_getitem payload "exp";
  match py_int v with
  | Raises ValueError => Raises DecodeError
  | Raises e => Raises e
  | Returns exp =>
      if Qle_bool (inject_Z exp) now then Raises ExpiredSignatureError
      else Returns tt
  end.

(** The issuer is given as a list: [iss] has to be a string of the list. *)
Definition validate_iss (payload : dict) (issuer : list string)
  : outcome unit :=
  match payload !! "iss" with
  | None => Raises (MissingRequiredClaimError "iss")
  | Some (PyStr iss) =>
      if bool_decide (iss ∈ issuer) then Returns tt
      else Raises InvalidIssuerError
  | Some _ => Raises InvalidIssuerError
  end.

(** The audience is given as one string: [aud] has to be that string or a
    list of strings containing it. *)
Definition validate_aud (payload : dict) (audience : string)
  : outcome unit :=
  let aud := dict_get payload "aud" in
  if negb (truthy aud) then Raises (MissingRequiredClaimError "aud")
  else
    match aud with
    | PyStr a =>
        if String.eqb a audience then Returns tt
        else Raises InvalidAudienceError
    | PyList items =>
        if forallb is_str items then
          if existsb (λ c, match c with
                           | PyStr a => String.eqb a audience
                           | _ => false
                           end) items
          then Returns tt
          else Raises InvalidAudienceError
        else Raises InvalidAudienceError
    | _ => Raises InvalidAudienceError
    end.

(** [jwt.decode(token, key=None, algorithms=..., audience=audience,
    issuer=issuer, options={"verify_signature": False, ...})] at time
    [now]: the payload, or the exception raised. *)
Definition decode (token : string) (audience : string)
    (issuer : list string) (opts : options) (now : Q) : outcome dict :=
  match jws_payload token with
  | None => Raises DecodeError
  | Some payload =>
      validate_required_claims payload (require opts);;
      (if verify_exp opts && dict_contains "exp" payload
       then validate_exp payload now else Returns tt);;
      (if verify_iss opts then validate_iss payload issuer
       else Returns tt);;
      (if verify_aud opts then validate_aud payload audience
       else Returns tt);;
      Returns payload
  end.

End Decode.
End PyJWT.

(** ** [src/server.py]: the claims-only verifier *)

Module Opaque.

(** The [issuer] argument of the constructor: [str | list[str]]. *)
Inductive issuer_arg : Type :=
| IssuerStr (s : string)
| IssuerList (l : list string).

Record GraphTokenVerifier : Type := {
  audience : string;
  issuers : list string;
  required_scopes : list string
}.

(** [GraphTokenVerifier.__init__] *)
Definition GraphTokenVerifier_init (audience : string) (issuer : issuer_arg)
    (required_scopes : list string) : GraphTokenVerifier :=
  {| audience := audience;
     issuers := match issuer with
                | IssuerStr s => [s]
                | IssuerList l => l
                end;
     required_scopes := required_scopes |}.

(** The [options] of the [pyjwt.decode] call. *)
Definition decode_options : PyJWT.options :=
  {| PyJWT.verify_exp := true;
     PyJWT.verify_aud := true;
     PyJWT.verify_iss := true;
     PyJWT.require := ["exp"; "aud"; "iss"] |}.

Section Verifier.

Variable jws_payload : string → option dict.
Variable int_of_str : string → option Z.

(** Library parameter: the strings pydantic reads as an integer. *)
Variable int_str_ok : string → bool.

(** [GraphTokenVerifier.verify_token], run at time [now]. *)
Definition verify_token (self : GraphTokenVerifier) (now : Q)
    (token : string) : outcome (option AccessToken) :=
  if negb (truthy (PyStr token)) then Returns None
  else
    match PyJWT.decode jws_payload int_of_str token
            (audience self) (issuers self) decode_options now with
    | Raises e => if is_PyJWTError e then Returns None else Raises e
    | Returns claims =>
        (* Scope check (AND logic) *)
        words ← py_split (dict_get_default claims "scp" (PyStr ""));
        let token_scopes : gset string := list_to_set words in
        let missing : gset string :=
          list_to_set (required_scopes self) ∖ token_scopes in
        if negb (bool_decide (missing = ∅)) then Returns None
        else
          exp ← dict_getitem claims "exp";
          access ← AccessToken_init int_str_ok token
                     (py_or (py_or (dict_get claims "appid")
                                   (dict_get claims "azp"))
                            (PyStr "unknown"))
                     (elements token_scopes) exp claims;
          Returns (Some access)
    end.

(** The verifier the server is started with. *)
Definition token_verifier (tenant_id : string) : GraphTokenVerifier :=
  GraphTokenVerifier_init
    "00000003-0000-0000-c000-000000000000"
    (IssuerStr ("https://sts.windows.net/" +:+ tenant_id +:+ "/"))
    ["User.Read"; "Mail.Read"].

End Verifier.

(** A table of example tokens for the unsigned reading of a token: each
    name stands for a compact serialisation whose payload segment decodes to
    the object beside it.  The tenant is [T]; the tokens expire at 2000. *)
Definition example_claims (scp : option pyval) : dict :=
  let base : dict :=
    <["exp" := PyInt 2000]>
      (<["aud" := PyStr "00000003-0000-0000-c000-000000000000"]>
         (<["iss" := PyStr "https://sts.windows.net/T/"]> ∅)) in
  match scp with
  | Some v => <["scp" := v]> base
  | None => base
  end.

Definition example_payload (token : string) : option dict :=
  if String.eqb token "both-scopes" then
    Some (example_claims (Some (PyStr "User.Read Mail.Read")))
  else if String.eqb token "one-scope" then
    Some (example_claims (Some (PyStr "User.Read")))
  else if String.eqb token "scope-list" then
    Some (example_claims
            (Some (PyList [PyStr "User.Read"; PyStr "Mail.Read"])))
  else if String.eqb token "no-scope-claim" then
    Some (example_claims None)
  else None.

(** [int] on the strings the examples use: none. *)
Definition example_int_of_str (s : string) : option Z := None.

(** The strings pydantic reads as an integer, among those the examples
    use: none. *)
Definition example_int_str_ok (s : string) : bool := false.

End Opaque.

(** ** fastmcp: the [JWTVerifier] base class *)

(** Library model.  [JWTVerifier] belongs to fastmcp, not to the repository;
    the definitions below follow its [_extract_scopes] and
    [load_access_token].  The latter reaches [_extract_scopes] through
    [self], so it takes the method of the actual class as an argument. *)
Module JWTVerifier.

Record config : Type := {
  issuer : string;
  audience : string;
  required_scopes : list string
}.

(** The elements of a list claim, typed as the annotation [list[str]] says;
    an element of another type raises. *)
Fixpoint str_items (items : list pyval) : outcome (list string) :=
  match items with
  | [] => Returns []
  | PyStr s :: rest => l ← str_items rest; Returns (s :: l)
  | _ :: _ => Raises TypeError
  end.

Definition scopes_of_claim (v : pyval) : option (outcome (list string)) :=
  match v with
  | PyStr s => Some (Returns (str_split s))
  | PyList items => Some (str_items items)
  | _ => None
  end.

(** [JWTVerifier._extract_scopes]: the [scope] claim, then the [scp] claim;
    the first one that is a string or a list gives the scopes. *)
Definition _extract_scopes (claims : dict) : outcome (list string) :=
  match claims !! "scope" ≫= scopes_of_claim with
  | Some r => r
  | None =>
      match claims !! "scp" ≫= scopes_of_claim with
      | Some r => r
      | None => Returns []
      end
  end.

(** [v < time.time()] *)
Definition py_lt_time (v : pyval) (now : Q) : outcome bool :=
  match v with
  | PyInt n => Returns (negb (Qle_bool now (inject_Z n)))
  | PyBool b => Returns (negb (Qle_bool now (inject_Z (if b then 1 else 0))))
  | PyFloat (Finite q) => Returns (negb (Qle_bool now q))
  | PyFloat NegInfinity => Returns true
  | PyFloat Infinity | PyFloat NaN => Returns false
  | PyNone | PyStr _ | PyList _ | PyDict _ => Raises TypeError
  end.

(** [aud == self.audience], or [self.audience in aud] for a list. *)
Definition audience_valid (aud : pyval) (audience : string) : bool :=
  match aud with
  | PyStr a => String.eqb a audience
  | PyList items =>
      existsb (λ c, match c with
                    | PyStr a => String.eqb a audience
                    | _ => false
                    end) items
  | _ => false
  end.

Section Base.

(** Library parameter: the claims of a token whose signature verifies
    against the key set; [None] when fetching the key or decoding the
    token raises. *)
Variable verified_claims : string → option dict.

Variable repr_container : pyval → string.

(** The [try] block of [load_access_token], after the token is decoded. *)
Definition check_claims (extract_scopes : dict → outcome (list string))
    (self : config) (now : Q) (token : string) (claims : dict)
  : outcome (option AccessToken) :=
  let client_id :=
    py_or (py_or (dict_get claims "client_id") (dict_get claims "sub"))
          (PyStr "unknown") in
  let exp := dict_get claims "exp" in
  expired ← (if truthy exp then py_lt_time exp now else Returns false);
  if (expired : bool) then Returns None
  else if truthy (PyStr (issuer self))
          && negb (match dict_get claims "iss" with
                   | PyStr iss => String.eqb iss (issuer self)
                   | _ => false
                   end)
  then Returns None
  else if truthy (PyStr (audience self))
          && negb (audience_valid (dict_get claims "aud") (audience self))
  then Returns None
  else
    scopes ← extract_scopes claims;
    if match required_scopes self with [] => false | _ => true end
       && negb (bool_decide
                  ((list_to_set (required_scopes self) : gset string)
                     ⊆ list_to_set scopes))
    then Returns None
    else
      expires_at ← (if truthy exp
                    then match exp with
                         | PyInt n => Returns (PyInt n)
                         | PyBool b => Returns (PyInt (if b then 1 else 0))
                         | PyFloat (Finite q) =>
                             Returns (PyInt (float_trunc q))
                         | PyFloat NaN => Raises ValueError
                         | PyFloat _ => Raises OverflowError
                         | _ => Raises TypeError
                         end
                    else Returns PyNone);
      Returns (Some {| token := token;
                       client_id := PyStr (py_str repr_container client_id);
                       scopes := scopes;
                       expires_at := expires_at;
                       claims := claims |}).

(** [JWTVerifier.load_access_token]: every exception is caught and turned
    into [None]. *)
Definition load_access_token
    (extract_scopes : dict → outcome (list string))
    (self : config) (now : Q) (token : string) : option AccessToken :=
  match verified_claims token with
  | None => None
  | Some claims =>
      match check_claims extract_scopes self now token claims with
      | Returns result => result
      | Raises _ => None
      end
  end.

End Base.
End JWTVerifier.

(** ** [src/example-obo/server.py]: signature-verified tokens, the
       on-behalf-of exchange and the shared Graph client *)

Module Obo.

(** *** [AzureJWTVerifier] *)

Record AzureJWTVerifier : Type := {
  base : JWTVerifier.config;
  _scope_prefix : string
}.

(** The element of the list comprehension in [_extract_scopes]:
    [s if "/" in s else f"{prefix}/{s}"]. *)
Definition qualify (prefix s : string) : string :=
  if has_slash s then s else prefix +:+ "/" +:+ s.

(** [AzureJWTVerifier._extract_scopes] *)
Definition _extract_scopes (self : AzureJWTVerifier) (claims : dict)
  : outcome (list string) :=
  scopes ← JWTVerifier._extract_scopes claims;
  if truthy (PyStr (_scope_prefix self))
  then Returns (map (qualify (_scope_prefix self)) scopes)
  else Returns scopes.

(** What [_extract_scopes] does to one scope under the prefix [namespace]:
    the spec's [normalize(scope, namespace)]. *)
Definition normalize (scope namespace : string) : string :=
  if truthy (PyStr namespace) then qualify namespace scope else scope.

Section Verifier.

Variable verified_claims : string → option dict.
Variable repr_container : pyval → string.

(** [AzureJWTVerifier.load_access_token].  The first [try] block decodes
    the token only to log its claims and swallows every exception; the
    result is the one of the base class. *)
Definition load_access_token (self : AzureJWTVerifier) (now : Q)
    (token : string) : outcome (option AccessToken) :=
  let result :=
    JWTVerifier.load_access_token verified_claims repr_container
      (_extract_scopes self) (base self) now token in
  Returns result.

End Verifier.

(** [identifier_uri] *)
Definition identifier_uri (azure_client_id : string) : string :=
  "api://" +:+ azure_client_id.

(** The verifier the server is started with; [issuer] is
    [oidc_metadata["issuer"]]. *)
Definition token_verifier (azure_client_id issuer : string)
  : AzureJWTVerifier :=
  {| base :=
       {| JWTVerifier.issuer := issuer;
          JWTVerifier.audience := azure_client_id;
          JWTVerifier.required_scopes :=
            [identifier_uri azure_client_id +:+ "/access_as_user"] |};
     _scope_prefix := identifier_uri azure_client_id |}.

(** *** The on-behalf-of exchange *)

Section Exchange.

(** Library parameter: [msal_app.acquire_token_on_behalf_of], giving the
    dictionary built from the provider's response. *)
Variable acquire_token_on_behalf_of : string → list string → dict.
Variable repr_container : pyval → string.

(** [_obo_exchange] *)
Definition _obo_exchange (assertion : string) : outcome pyval :=
  let result :=
    acquire_token_on_behalf_of assertion
      ["https://graph.microsoft.com/.default"] in
  if negb (dict_contains "access_token" result) then
    let error := dict_get result "error" in
    let error_desc := dict_get result "error_description" in
    Raises (RuntimeError ("OBO token exchange failed: "
                          +:+ py_str repr_container error +:+ " "
                          +:+ py_str repr_container error_desc))
  else dict_getitem result "access_token".

End Exchange.

(** *** The shared Graph client *)

(** An [httpx.AsyncClient] object, identified by the order of creation. *)
Definition client := nat.

(** What [asyncio.get_event_loop()] finds when the client is closed. *)
Inductive event_loop : Type :=
| NoLoop        (* [RuntimeError]: [loop = None] *)
| LoopIdle      (* a loop that is not running *)
| LoopRunning.

(** How [aclose()] was started. *)
Inductive release : Type :=
| CreateTask (c : client)   (* [loop.create_task(c.aclose())] *)
| Run (c : client).         (* [asyncio.run(c.aclose())] *)

Definition released_client (r : release) : client :=
  match r with CreateTask c | Run c => c end.

(** The module state: the global [_graph_client], and a history of the
    clients constructed and of the [aclose()] calls started. *)
Record state : Type := {
  _graph_client : option client;
  constructed : list client;
  releases : list release
}.

Definition initial : state :=
  {| _graph_client := None; constructed := []; releases := [] |}.

(** [_get_graph_client] *)
Definition _get_graph_client (st : state) : client * state :=
  match _graph_client st with
  | None =>
      let c := length (constructed st) in
      (c, {| _graph_client := Some c;
             constructed := constructed st ++ [c];
             releases := releases st |})
  | Some c => (c, st)
  end.

(** [_close_graph_client] *)
Definition _close_graph_client (loop : event_loop) (st : state) : state :=
  match _graph_client st with
  | None => st
  | Some c =>
      {| _graph_client := None;
         constructed := constructed st;
         releases := releases st ++
           [match loop with
            | LoopRunning => CreateTask c
            | LoopIdle | NoLoop => Run c
            end] |}
  end.

(** A run of the module: calls of the two functions in some order. *)
Inductive call : Type :=
| Get
| Close (loop : event_loop).

Definition step (st : state) (c : call) : state :=
  match c with
  | Get => snd (_get_graph_client st)
  | Close loop => _close_graph_client loop st
  end.

Definition run (calls : list call) (st : state) : state :=
  fold_left step calls st.

(** *** Example inputs *)

(** Provider responses, by assertion. *)
Definition example_response (assertion : string) (_ : list string) : dict :=
  if String.eqb assertion "rejected" then
    <["error" := PyStr "invalid_grant"]>
      (<["error_description" := PyStr "AADSTS50013: assertion is not valid"]> ∅)
  else if String.eqb assertion "empty" then ∅
  else if String.eqb assertion "both" then
    <["access_token" := PyStr "graph-token"]>
      (<["error" := PyStr "interaction_required"]> ∅)
  else <["access_token" := PyStr "graph-token"]> ∅.

Definition example_repr (v : pyval) : string := "".

(** Verified claims, by token, for the client [X] and the issuer
    [https://login.example/T/v2.0]. *)
Definition example_verified (token : string) : option dict :=
  if String.eqb token "short-scope" then
    Some (<["exp" := PyInt 2000]>
            (<["aud" := PyStr "X"]>
               (<["iss" := PyStr "https://login.example/T/v2.0"]>
                  (<["scp" := PyStr "access_as_user"]> ∅))))
  else if String.eqb token "other-scope" then
    Some (<["exp" := PyInt 2000]>
            (<["aud" := PyStr "X"]>
               (<["iss" := PyStr "https://login.example/T/v2.0"]>
                  (<["scp" := PyStr "profile"]> ∅))))
  else None.

End Obo.

(** ** More of Python: values read from a response *)

(** The items of a [dict] value are kept as a list of pairs with distinct
    keys; this is the lookup of one key. *)
Fixpoint entries_lookup (k : string) (entries : list (string * pyval))
  : option pyval :=
  match entries with
  | [] => None
  | (k', v) :: rest =>
      if String.eqb k' k then Some v else entries_lookup k rest
  end.

(** [v.get(k, dflt)]: only a [dict] has the method. *)
Definition py_get (v : pyval) (k : string) (dflt : pyval) : outcome pyval :=
  match v with
  | PyDict entries => Returns (default dflt (entries_lookup k entries))
  | _ => Raises AttributeError
  end.

(** [v[k]] for a string [k]: a missing key of a [dict] is a [KeyError], any
    other value cannot be indexed by a string. *)
Definition py_getitem (v : pyval) (k : string) : outcome pyval :=
  match v with
  | PyDict entries =>
      match entries_lookup k entries with
      | Some x => Returns x
      | None => Raises (KeyError k)
      end
  | _ => Raises TypeError
  end.

(** The characters of a string, each as a string. *)
Fixpoint str_chars (s : string) : list pyval :=
  match s with
  | EmptyString => []
  | String c rest => PyStr (String c "") :: str_chars rest
  end.

(** What [for x in v] goes through: the items of a list, the keys of a
    dict, the characters of a string; other values are not iterable. *)
Definition py_iter (v : pyval) : outcome (list pyval) :=
  match v with
  | PyList items => Returns items
  | PyDict entries => Returns (map (λ kv, PyStr (fst kv)) entries)
  | PyStr s => Returns (str_chars s)
  | PyNone | PyBool _ | PyInt _ | PyFloat _ => Raises TypeError
  end.

(** [sep.join(l)] *)
Fixpoint str_join (sep : string) (l : list string) : string :=
  match l with
  | [] => ""
  | [x] => x
  | x :: rest => x +:+ sep +:+ str_join sep rest
  end.

(** ["\n"] *)
Definition newline : string := String "010" "".

(** The pieces of [s] between occurrences of [sep], [w] being the piece
    read so far. *)
Fixpoint split_on_from (sep : Ascii.ascii) (w s : string) : list string :=
  match s with
  | EmptyString => [w]
  | String c rest =>
      if Ascii.eqb c sep then w :: split_on_from sep "" rest
      else split_on_from sep (w +:+ String c "") rest
  end.

(** [s.split(sep)] for a separator of one character. *)
Definition str_split_on (sep : Ascii.ascii) (s : string) : list string :=
  split_on_from sep "" s.

(** [s * n] *)
Fixpoint str_repeat (s : string) (n : nat) : string :=
  match n with
  | O => ""
  | S n' => s +:+ str_repeat s n'
  end.

(** ** The diagnostic decoding in [AzureJWTVerifier.load_access_token] *)

Module Diagnostic.

(** [parts[1] + "=" * (4 - len(parts[1]) % 4)] for
    [parts = token.split(".")]; [None] stands for the [IndexError] of a
    token without a dot, which the [try] block swallows. *)
Definition payload_b64 (token : string) : option string :=
  match str_split_on "." token !! 1%nat with
  | Some part =>
      Some (part +:+ str_repeat "=" (4 - String.length part mod 4))
  | None => None
  end.

(** The claims the block logs.  Library parameter [b64_json]:
    [json.loads(base64.urlsafe_b64decode(s))], [None] when it raises. *)
Definition debug_claims (b64_json : string → option dict) (token : string)
  : option dict :=
  payload_b64 token ≫= b64_json.

End Diagnostic.

(** ** The tools of both servers *)

Module Tools.

(** [GRAPH_BASE] *)
Definition GRAPH_BASE : string := "https://graph.microsoft.com/v1.0".

(** A request of the Graph API: the URL and the headers. *)
Record request : Type := {
  url : string;
  headers : list (string * string)
}.

(** What comes back: a response with its status and its body read as JSON
    ([None] when the body is not JSON), or no response at all, in which
    case [client.get] raises an [httpx.RequestError]. *)
Inductive reply : Type :=
| Reply (status_code : Z) (json : option pyval)
| NoReply.

(** How a tool call can fail: an exception of [exn], or one of httpx. *)
Inductive failure : Type :=
| Raised (e : exn)
| HTTPStatusError (status_code : Z)
| RequestError.

Inductive attempt (A : Type) : Type :=
| Done (a : A)
| Failed (f : failure).
Arguments Done {A} a.
Arguments Failed {A} f.

#[global] Instance attempt_ret : MRet attempt := λ A a, Done a.
#[global] Instance attempt_bind : MBind attempt := λ A B f m,
  match m with
  | Done a => f a
  | Failed x => Failed x
  end.

Definition lift {A} (m : outcome A) : attempt A :=
  match m with
  | Returns a => Done a
  | Raises e => Failed (Raised e)
  end.

(** [resp.raise_for_status()] followed by [resp.json()]: httpx raises
    [HTTPStatusError] unless the status is 2xx; a body that is not JSON is
    a [ValueError]. *)
Definition read_reply (r : reply) : attempt pyval :=
  match r with
  | NoReply => Failed RequestError
  | Reply status_code json =>
      if (200 <=? status_code)%Z && (status_code <? 300)%Z then
        match json with
        | Some body => Done body
        | None => Failed (Raised ValueError)
        end
      else Failed (HTTPStatusError status_code)
  end.

(** [f"Bearer {token}"] as the only header. *)
Definition bearer (token : string) : list (string * string) :=
  [("Authorization", "Bearer " +:+ token)].

Section Format.

Variable repr_container : pyval → string.

(** [msg.get("from", {}).get("emailAddress", {}).get("address",
    "unknown")] *)
Definition message_sender (msg : pyval) : outcome pyval :=
  from ← py_get msg "from" (PyDict []);
  email ← py_get from "emailAddress" (PyDict []);
  py_get email "address" (PyStr "unknown").

(** The body of the loop of [list_junk_emails]: the line of one message. *)
Definition message_line (msg : pyval) : outcome string :=
  sender ← message_sender msg;
  subject ← py_getitem msg "subject";
  received ← py_getitem msg "receivedDateTime";
  Returns ("- " +:+ py_str repr_container subject +:+ " (from: "
           +:+ py_str repr_container sender +:+ ", "
           +:+ py_str repr_container received +:+ ")").

(** The loop of [list_junk_emails]: it stops at the first message that
    raises. *)
Fixpoint message_lines (messages : list pyval) : outcome (list string) :=
  match messages with
  | [] => Returns []
  | msg :: rest =>
      line ← message_line msg;
      lines ← message_lines rest;
      Returns (line :: lines)
  end.

(** [list_junk_emails] after the call of [_graph_get]. *)
Definition junk_emails_text (data : pyval) : outcome string :=
  messages ← py_get data "value" (PyList []);
  if negb (truthy messages) then Returns "No junk emails found."
  else
    items ← py_iter messages;
    lines ← message_lines items;
    Returns (str_join newline lines).

(** [hello] after the call of [_graph_get]. *)
Definition hello_text (data : pyval) : outcome string :=
  name ← py_getitem data "displayName";
  Returns ("Hello, " +:+ py_str repr_container name +:+ "!").

(** The two tools over the [_graph_get] of a server, which acts on a state
    of type [W]. *)
Variable W : Type.
Variable _graph_get : string → W → attempt pyval * W.

Definition hello (w : W) : attempt string * W :=
  let '(data, w') := _graph_get "/me" w in
  (data ≫= λ d, lift (hello_text d), w').

Definition list_junk_emails (w : W) : attempt string * W :=
  let '(data, w') :=
    _graph_get
      "/me/mailFolders/junkemail/messages?$top=5&$select=subject,from,receivedDateTime"
      w in
  (data ≫= λ d, lift (junk_emails_text d), w').

End Format.
End Tools.

(** ** [src/server.py]: the Graph call with the caller's own token *)

Module OpaqueServer.
Section Server.

(** [get_access_token()]: the access token of the current request. *)
Variable get_access_token : option AccessToken.

(** The Graph API, as far as the server sees it. *)
Variable respond : Tools.request → Tools.reply.

(** [_graph_get]; the state is the list of requests sent so far. *)
Definition _graph_get (path : string) (sent : list Tools.request)
  : Tools.attempt pyval * list Tools.request :=
  match get_access_token with
  | None =>
      (Tools.Failed (Tools.Raised (RuntimeError "No access token available")),
       sent)
  | Some access =>
      let req := {| Tools.url := Tools.GRAPH_BASE +:+ path;
                    Tools.headers := Tools.bearer (token access) |} in
      (Tools.read_reply (respond req), sent ++ [req])
  end.

End Server.
End OpaqueServer.

(** ** [src/example-obo/server.py]: the Graph call with an exchanged
       token *)

Module OboServer.

(** The state of the server: the shared client, and the requests sent so
    far, each with the client that sent it. *)
Record world : Type := {
  graph : Obo.state;
  requests : list (Obo.client * Tools.request)
}.

Section Server.

Variable get_access_token : option AccessToken.
Variable acquire_token_on_behalf_of : string → list string → dict.
Variable repr_container : pyval → string.
Variable respond : Tools.request → Tools.reply.

(** [_graph_get] *)
Definition _graph_get (path : string) (w : world)
  : Tools.attempt pyval * world :=
  match get_access_token with
  | None =>
      (Tools.Failed (Tools.Raised (RuntimeError "No access token available")),
       w)
  | Some access =>
      match Obo._obo_exchange acquire_token_on_behalf_of repr_container
              (token access) with
      | Raises e => (Tools.Failed (Tools.Raised e), w)
      | Returns graph_token =>
          let '(client, g) := Obo._get_graph_client (graph w) in
          let req :=
            {| Tools.url := Tools.GRAPH_BASE +:+ path;
               Tools.headers :=
                 Tools.bearer (py_str repr_container graph_token) |} in
          (Tools.read_reply (respond req),
           {| graph := g; requests := requests w ++ [(client, req)] |})
      end
  end.

End Server.

(** The history of the shared client is consistent: clients are numbered
    in the order of construction, and [aclose()] has been started, once
    and in that order, on every client but the one the handle holds. *)
Definition consistent (st : Obo.state) : Prop :=
  Obo.constructed st = seq 0 (length (Obo.constructed st))
  ∧ match Obo._graph_client st with
    | Some c =>
        Obo.constructed st = map Obo.released_client (Obo.releases st) ++ [c]
    | None =>
        Obo.constructed st = map Obo.released_client (Obo.releases st)
    end.

End OboServer.

(** ** More example inputs *)

Module Examples.

(** The access token of the example token [both-scopes]. *)
Definition accepted : AccessToken :=
  {| token := "both-scopes";
     client_id := PyStr "unknown";
     scopes := ["Mail.Read"; "User.Read"];
     expires_at := PyInt 2000;
     claims := Opaque.example_claims (Some (PyStr "User.Read Mail.Read")) |}.

(** Tokens that name the client: by [appid] and [azp], and by [azp] next
    to an empty [appid]. *)
Definition client_claims (appid azp : string) : dict :=
  <["appid" := PyStr appid]>
    (<["azp" := PyStr azp]>
       (Opaque.example_claims (Some (PyStr "User.Read Mail.Read")))).

Definition client_payload (token : string) : option dict :=
  if String.eqb token "appid-and-azp" then
    Some (client_claims "app-1" "azp-1")
  else if String.eqb token "azp-only" then
    Some (client_claims "" "azp-1")
  else None.

(** Tokens whose [exp] claim is not a JSON integer, the other claims
    being those of the example tokens: an empty list next to the single
    scope [User.Read]; minus infinity, which [json.loads] reads from
    [-Infinity]; and the number 2000.5. *)
Definition exp_claims (exp : pyval) (scp : string) : dict :=
  <["exp" := exp]> (Opaque.example_claims (Some (PyStr scp))).

Definition exp_payload (token : string) : option dict :=
  if String.eqb token "exp-list" then
    Some (exp_claims (PyList []) "User.Read")
  else if String.eqb token "exp-minus-infinity" then
    Some (exp_claims (PyFloat NegInfinity) "User.Read Mail.Read")
  else if String.eqb token "exp-fraction" then
    Some (exp_claims (PyFloat (Finite (4001 # 2))) "User.Read Mail.Read")
  else None.

(** A verifier for another audience, and one for another tenant. *)
Definition other_audience : Opaque.GraphTokenVerifier :=
  Opaque.GraphTokenVerifier_init "another-app"
    (Opaque.IssuerStr "https://sts.windows.net/T/") [].

Definition other_tenant : Opaque.GraphTokenVerifier :=
  Opaque.GraphTokenVerifier_init "00000003-0000-0000-c000-000000000000"
    (Opaque.IssuerList ["https://sts.windows.net/U/";
                        "https://sts.windows.net/V/"]) [].

(** A junk-mail folder with two messages, the second without sender. *)
Definition junk_mail : pyval :=
  PyDict
    [("value",
      PyList
        [PyDict
           [("subject", PyStr "You won");
            ("from",
             PyDict
               [("emailAddress",
                 PyDict [("address", PyStr "lottery@example.org")])]);
            ("receivedDateTime", PyStr "2024-05-01T10:00:00Z")];
         PyDict
           [("subject", PyStr "Invoice");
            ("receivedDateTime", PyStr "2024-05-02T11:30:00Z")]])].

(** A folder whose second message has no subject. *)
Definition junk_mail_no_subject : pyval :=
  PyDict
    [("value",
      PyList
        [PyDict
           [("subject", PyStr "You won");
            ("receivedDateTime", PyStr "2024-05-01T10:00:00Z")];
         PyDict [("receivedDateTime", PyStr "2024-05-02T11:30:00Z")]])].

(** The Graph API of the examples: the profile of Ada under [/me] for the
    bearer token [graph-token], 401 for any other token. *)
Definition graph_api (req : Tools.request) : Tools.reply :=
  if bool_decide (Tools.headers req = Tools.bearer "graph-token") then
    if String.eqb (Tools.url req) "https://graph.microsoft.com/v1.0/me"
    then Tools.Reply 200 (Some (PyDict [("displayName", PyStr "Ada")]))
    else Tools.Reply 200 (Some junk_mail)
  else Tools.Reply 401 None.

(** The access token of a request of the on-behalf-of server. *)
Definition inbound (assertion : string) : AccessToken :=
  {| token := assertion;
     client_id := PyStr "unknown";
     scopes := ["api://X/access_as_user"];
     expires_at := PyInt 2000;
     claims := ∅ |}.

Definition fresh_world : OboServer.world :=
  {| OboServer.graph := Obo.initial; OboServer.requests := [] |}.

End Examples.

(** * Properties *)

(** ** Strings, values and outcomes *)

Lemma truthy_str_true (s : string) : truthy (PyStr s) = true ↔ s ≠ "".
Proof.
  simpl. destruct (String.eqb_spec s ""); simpl; split; congruence.
Qed.

Lemma truthy_str_empty : truthy (PyStr "") = false.
Proof. reflexivity. Qed.

Lemma has_slash_app (s t : string) :
  has_slash (s +:+ t) = has_slash s || has_slash t.
Proof.
  induction s as [|c s IH]; simpl; [done|].
  rewrite IH. by destruct (Ascii.eqb c "/").
Qed.

Lemma has_slash_prefixed (prefix s : string) :
  has_slash (prefix +:+ "/" +:+ s) = true.
Proof. rewrite has_slash_app. simpl. by rewrite orb_true_r. Qed.

Lemma bind_returns {A B} (m : outcome A) (f : A → outcome B) (b : B) :
  m ≫= f = Returns b → ∃ a, m = Returns a ∧ f a = Returns b.
Proof. destruct m as [a|e]; simpl; [eauto | discriminate]. Qed.

(** An access token that the constructor returns holds the arguments,
    and these have passed the validation. *)
Lemma AccessToken_init_returns int_str_ok tok cid scopes' exp cl p :
  AccessToken_init int_str_ok tok cid scopes' exp cl = Returns p →
  p = {| token := tok; client_id := cid; scopes := scopes';
         expires_at := exp; claims := cl |}
  ∧ is_str cid = true
  ∧ valid_optional_int int_str_ok exp = true.
Proof.
  unfold AccessToken_init.
  destruct (is_str cid); simpl; [|discriminate].
  destruct (valid_optional_int int_str_ok exp); [|discriminate].
  intros H. by simplify_eq.
Qed.

Lemma AccessToken_init_raises int_str_ok tok cid scopes' exp cl e :
  AccessToken_init int_str_ok tok cid scopes' exp cl = Raises e →
  e = ValidationError
  ∧ (is_str cid = false ∨ valid_optional_int int_str_ok exp = false).
Proof.
  unfold AccessToken_init.
  destruct (is_str cid); simpl.
  - destruct (valid_optional_int int_str_ok exp); [discriminate|].
    intros H. simplify_eq. auto.
  - intros H. simplify_eq. auto.
Qed.

Lemma dict_contains_true (k : string) (d : dict) :
  dict_contains k d = true ↔ ∃ v, d !! k = Some v.
Proof.
  unfold dict_contains. rewrite bool_decide_eq_true. reflexivity.
Qed.

Lemma dict_contains_false (k : string) (d : dict) :
  dict_contains k d = false ↔ d !! k = None.
Proof.
  unfold dict_contains. rewrite bool_decide_eq_false.
  rewrite <- eq_None_not_Some. reflexivity.
Qed.

(** ** PyJWT *)

Section DecodeFacts.

Variable jws_payload : string → option dict.
Variable int_of_str : string → option Z.

Lemma validate_required_claims_ok payload required :
  PyJWT.validate_required_claims payload required = Returns tt →
  ∀ claim, claim ∈ required → ∃ v, payload !! claim = Some v ∧ v ≠ PyNone.
Proof.
  induction required as [|c rest IH]; simpl; intros H claim Hin.
  - by apply elem_of_nil in Hin.
  - unfold dict_get in H.
    apply elem_of_cons in Hin as [->|Hin].
    + destruct (payload !! c) as [v|]; simpl in H; [|discriminate].
      exists v. split; [done|]. intros ->. discriminate.
    + apply IH; [|done].
      destruct (default PyNone (payload !! c)); done.
Qed.

Lemma validate_required_claims_raises payload required e :
  PyJWT.validate_required_claims payload required = Raises e →
  is_PyJWTError e = true.
Proof.
  induction required as [|c rest IH]; simpl; [discriminate|].
  destruct (dict_get payload c); try done.
  by intros [= <-].
Qed.

(** A decoded token is the payload of the token, with the required
    claims. *)
Lemma decode_returns token audience issuer opts now claims :
  PyJWT.decode jws_payload int_of_str token audience issuer opts now
    = Returns claims →
  jws_payload token = Some claims
  ∧ ∀ claim, claim ∈ PyJWT.require opts →
      ∃ v, claims !! claim = Some v ∧ v ≠ PyNone.
Proof.
  unfold PyJWT.decode. destruct (jws_payload token) as [payload|];
    [|discriminate].
  intros H.
  apply bind_returns in H as ([] & Hreq & H).
  apply bind_returns in H as (_ & _ & H).
  apply bind_returns in H as (_ & _ & H).
  apply bind_returns in H as (_ & _ & H).
  simplify_eq.
  split; [done|]. by apply validate_required_claims_ok.
Qed.

(** An expired [exp] makes the expiry validation raise
    [ExpiredSignatureError]. *)
Lemma validate_exp_expired payload now v exp :
  payload !! "exp" = Some v →
  PyJWT.py_int int_of_str v = Returns exp →
  (inject_Z exp <= now)%Q →
  PyJWT.validate_exp int_of_str payload now = Raises ExpiredSignatureError.
Proof.
  intros Hv Hint Hle. unfold PyJWT.validate_exp, dict_getitem.
  rewrite Hv. simpl. rewrite Hint.
  apply Qle_bool_iff in Hle. by rewrite Hle.
Qed.

End DecodeFacts.

Lemma difference_empty_subseteq (X Y : gset string) : X ∖ Y = ∅ ↔ X ⊆ Y.
Proof.
  split.
  - intros H x Hx. destruct (decide (x ∈ Y)) as [|Hn]; [done|].
    assert (x ∈ X ∖ Y) as Hd by set_solver.
    rewrite H in Hd. by apply not_elem_of_empty in Hd.
  - intros H. apply elem_of_equiv_empty_L.
    intros x [Hx Hn]%elem_of_difference. by apply Hn, H.
Qed.

(** ** The claims-only verifier *)

Section OpaqueFacts.

Variable jws_payload : string → option dict.
Variable int_of_str : string → option Z.
Variable int_str_ok : string → bool.

Import Opaque.

(** The scope check on decoded claims: what [verify_token] does once
    [pyjwt.decode] has returned. *)
Lemma verify_token_decoded self now token claims :
  token ≠ "" →
  PyJWT.decode jws_payload int_of_str token
    (audience self) (issuers self) decode_options now = Returns claims →
  verify_token jws_payload int_of_str int_str_ok self now token =
    (words ← py_split (dict_get_default claims "scp" (PyStr ""));
     if negb (bool_decide
                (list_to_set (required_scopes self) ∖ list_to_set words
                 = (∅ : gset string)))
     then Returns None
     else
       exp ← dict_getitem claims "exp";
       access ← AccessToken_init int_str_ok token
                  (py_or (py_or (dict_get claims "appid")
                                (dict_get claims "azp"))
                         (PyStr "unknown"))
                  (elements (list_to_set words : gset string)) exp claims;
       Returns (Some access)).
Proof.
  intros Hne Hdec. unfold verify_token.
  apply truthy_str_true in Hne. rewrite Hne. simpl negb. cbv iota.
  rewrite Hdec. reflexivity.
Qed.

(** The empty token is rejected before anything else is looked at. *)
Lemma verify_token_no_token self now :
  verify_token jws_payload int_of_str int_str_ok self now "" = Returns None.
Proof. reflexivity. Qed.

(** A [PyJWTError] raised by [pyjwt.decode] becomes [None]. *)
Lemma verify_token_decode_error self now token e :
  PyJWT.decode jws_payload int_of_str token
    (audience self) (issuers self) decode_options now = Raises e →
  is_PyJWTError e = true →
  verify_token jws_payload int_of_str int_str_ok self now token = Returns None.
Proof.
  intros Hdec He. unfold verify_token.
  destruct (negb (truthy (PyStr token))); [done|].
  by rewrite Hdec, He.
Qed.

End OpaqueFacts.

(** C9.  In the claims-only strategy the empty token is rejected at once:
    [verify_token] returns [None] whatever the decoder, the verifier's
    configuration and the time are, so neither is consulted. *)
Theorem verify_token_empty_token jws_payload int_of_str int_str_ok self now :
  Opaque.verify_token jws_payload int_of_str int_str_ok self now ""
  = Returns None.
Proof. reflexivity. Qed.

(** Where an expired token is rejected: in the claims-only strategy a
    token whose [exp] claim [int] reads as a number strictly less than the
    current time is rejected, however small the difference; there is no
    grace window. *)
Lemma verify_token_expired jws_payload int_of_str int_str_ok self now token
    payload v exp :
  jws_payload token = Some payload →
  payload !! "exp" = Some v →
  PyJWT.py_int int_of_str v = Returns exp →
  (inject_Z exp < now)%Q →
  Opaque.verify_token jws_payload int_of_str int_str_ok self now token
  = Returns None.
Proof.
  intros Hjws Hv Hint Hlt.
  destruct (decide (token = "")) as [->|Hne];
    [apply verify_token_no_token|].
  assert (∃ e, PyJWT.decode jws_payload int_of_str token
                 (Opaque.audience self) (Opaque.issuers self)
                 Opaque.decode_options now = Raises e
               ∧ is_PyJWTError e = true) as (e & Hdec & He).
  { unfold PyJWT.decode. rewrite Hjws.
    destruct (PyJWT.validate_required_claims payload
                (PyJWT.require Opaque.decode_options)) as [[]|e] eqn:Hreq.
    - exists ExpiredSignatureError. split; [|done].
      simpl. replace (dict_contains "exp" payload) with true
        by (symmetry; apply dict_contains_true; eauto).
      rewrite (validate_exp_expired int_of_str payload now v exp);
        [done..|]. by apply Qlt_le_weak.
    - exists e. split; [done|].
      by eapply validate_required_claims_raises. }
  by eapply verify_token_decode_error.
Qed.

(** A token that expired one second ago is rejected. *)
Lemma verify_token_expired_witness :
  Opaque.verify_token Opaque.example_payload Opaque.example_int_of_str
    Opaque.example_int_str_ok
    (Opaque.token_verifier "T") (2001 # 1) "both-scopes" = Returns None.
Proof.
  apply (verify_token_expired Opaque.example_payload
           Opaque.example_int_of_str Opaque.example_int_str_ok
           (Opaque.token_verifier "T") (2001 # 1) "both-scopes"
           (Opaque.example_claims (Some (PyStr "User.Read Mail.Read")))
           (PyInt 2000) 2000).
  - reflexivity.
  - vm_compute. reflexivity.
  - reflexivity.
  - reflexivity.
Defined.

(** C4.  The claim fails in the claims-only strategy at an [exp] claim
    that is minus infinity: the claim is less than the current time as
    Python compares them, yet [int(exp)] raises [OverflowError] inside
    [pyjwt.decode], which is no [PyJWTError], and [verify_token] raises it
    where the claim has it return [None]. *)
Theorem verify_token_raises_on_infinite_exp :
  Examples.exp_payload "exp-minus-infinity"
  = Some (Examples.exp_claims (PyFloat NegInfinity) "User.Read Mail.Read")
  ∧ Examples.exp_claims (PyFloat NegInfinity) "User.Read Mail.Read"
      !! "exp" = Some (PyFloat NegInfinity)
  ∧ JWTVerifier.py_lt_time (PyFloat NegInfinity) (1000 # 1) = Returns true
  ∧ Opaque.verify_token Examples.exp_payload Opaque.example_int_of_str
      Opaque.example_int_str_ok (Opaque.token_verifier "T") (1000 # 1)
      "exp-minus-infinity"
    = Raises OverflowError.
Proof. repeat split; vm_compute; reflexivity. Qed.

(** Where a token without client claims does yield an access token: it
    passes the expiry, audience, issuer and scope checks, has neither an
    [appid] nor an [azp] claim, and its [exp] claim fits the field
    [expires_at] of the access token.  The client identifier is then the
    string "unknown". *)
Lemma verify_token_unknown_client jws_payload int_of_str int_str_ok self
    now token claims words :
  token ≠ "" →
  PyJWT.decode jws_payload int_of_str token
    (Opaque.audience self) (Opaque.issuers self)
    Opaque.decode_options now = Returns claims →
  py_split (dict_get_default claims "scp" (PyStr "")) = Returns words →
  (list_to_set (Opaque.required_scopes self) : gset string)
    ⊆ list_to_set words →
  claims !! "appid" = None →
  claims !! "azp" = None →
  (∀ v, claims !! "exp" = Some v →
        valid_optional_int int_str_ok v = true) →
  ∃ p, Opaque.verify_token jws_payload int_of_str int_str_ok self now token
         = Returns (Some p)
       ∧ client_id p = PyStr "unknown".
Proof.
  intros Hne Hdec Hsplit Hsub Happ Hazp Hvalid.
  rewrite (verify_token_decoded _ _ _ _ _ _ _ Hne Hdec), Hsplit. simpl.
  apply difference_empty_subseteq in Hsub.
  rewrite bool_decide_eq_true_2 by done. simpl.
  apply decode_returns in Hdec as [_ Hreq].
  destruct (Hreq "exp") as (v & Hv & _); [set_solver|].
  unfold dict_getitem. rewrite Hv. simpl.
  unfold AccessToken_init, dict_get. rewrite Happ, Hazp. simpl.
  rewrite (Hvalid v Hv). simpl.
  eexists. split; reflexivity.
Qed.

Lemma verify_token_unknown_client_witness :
  ∃ p, Opaque.verify_token Opaque.example_payload Opaque.example_int_of_str
         Opaque.example_int_str_ok (Opaque.token_verifier "T") (1000 # 1)
         "both-scopes"
       = Returns (Some p)
       ∧ client_id p = PyStr "unknown".
Proof.
  apply (verify_token_unknown_client Opaque.example_payload
           Opaque.example_int_of_str Opaque.example_int_str_ok
           (Opaque.token_verifier "T") (1000 # 1) "both-scopes"
           (Opaque.example_claims (Some (PyStr "User.Read Mail.Read")))
           ["User.Read"; "Mail.Read"]).
  - discriminate.
  - vm_compute. reflexivity.
  - vm_compute. reflexivity.
  - apply (bool_decide_unpack _). vm_compute. exact I.
  - vm_compute. reflexivity.
  - vm_compute. reflexivity.
  - intros v Hv. vm_compute in Hv. by injection Hv as <-.
Defined.

(** C10.  The claim fails at an [exp] claim with a fractional part: the
    token with [exp] 2000.5 passes the expiry, audience and issuer checks
    of [pyjwt.decode] at time 1000, carries both required scopes and has
    neither [appid] nor [azp], yet [verify_token] raises pydantic's
    [ValidationError], because [claims["exp"]] is handed to the field
    [expires_at: int | None] as it is; no access token with the client
    identifier "unknown" comes out. *)
Theorem verify_token_raises_on_fractional_exp :
  PyJWT.decode Examples.exp_payload Opaque.example_int_of_str
    "exp-fraction" (Opaque.audience (Opaque.token_verifier "T"))
    (Opaque.issuers (Opaque.token_verifier "T")) Opaque.decode_options
    (1000 # 1)
  = Returns (Examples.exp_claims (PyFloat (Finite (4001 # 2)))
               "User.Read Mail.Read")
  ∧ py_split (dict_get_default
                (Examples.exp_claims (PyFloat (Finite (4001 # 2)))
                   "User.Read Mail.Read") "scp" (PyStr ""))
    = Returns ["User.Read"; "Mail.Read"]
  ∧ Examples.exp_claims (PyFloat (Finite (4001 # 2)))
      "User.Read Mail.Read" !! "appid" = None
  ∧ Examples.exp_claims (PyFloat (Finite (4001 # 2)))
      "User.Read Mail.Read" !! "azp" = None
  ∧ Opaque.verify_token Examples.exp_payload Opaque.example_int_of_str
      Opaque.example_int_str_ok (Opaque.token_verifier "T") (1000 # 1)
      "exp-fraction"
    = Raises ValidationError.
Proof. repeat split; vm_compute; reflexivity. Qed.

(** C1.  The claim fails in the claims-only strategy: a token that passes
    the expiry, audience and issuer checks and whose [scp] claim is a JSON
    list makes [verify_token] raise [AttributeError], where the claim has
    it return [None] or an access token. *)
Theorem verify_token_raises_on_scope_list :
  Opaque.verify_token Opaque.example_payload Opaque.example_int_of_str
    Opaque.example_int_str_ok
    (Opaque.token_verifier "T") (1000 # 1) "scope-list"
  = Raises AttributeError.
Proof. vm_compute. reflexivity. Qed.

(** In the claims-only strategy every value of [scp] that is not a string
    has this effect on a token that passes the library's checks. *)
Lemma verify_token_raises_on_scp jws_payload int_of_str int_str_ok self now
    token claims v :
  token ≠ "" →
  PyJWT.decode jws_payload int_of_str token
    (Opaque.audience self) (Opaque.issuers self)
    Opaque.decode_options now = Returns claims →
  claims !! "scp" = Some v →
  is_str v = false →
  Opaque.verify_token jws_payload int_of_str int_str_ok self now token
  = Raises AttributeError.
Proof.
  intros Hne Hdec Hv Hstr.
  rewrite (verify_token_decoded _ _ _ _ _ _ _ Hne Hdec).
  unfold dict_get_default. rewrite Hv. simpl.
  by destruct v.
Qed.

(** The signature-verified strategy returns in every case. *)
Lemma load_access_token_returns verified_claims repr_container self now
    token :
  ∃ r, Obo.load_access_token verified_claims repr_container self now token
       = Returns r.
Proof. eexists. reflexivity. Qed.

(** ** The base class *)

Section BaseFacts.

Variable verified_claims : string → option dict.
Variable repr_container : pyval → string.
Variable extract_scopes : dict → outcome (list string).

(** An access token comes out of the checks only with the scopes the
    [_extract_scopes] method gave, and these include the required ones. *)
Lemma check_claims_some self now token claims p :
  JWTVerifier.check_claims repr_container extract_scopes self now token
    claims = Returns (Some p) →
  ∃ scopes', extract_scopes claims = Returns scopes'
    ∧ scopes p = scopes'
    ∧ (list_to_set (JWTVerifier.required_scopes self) : gset string)
        ⊆ list_to_set scopes'.
Proof.
  unfold JWTVerifier.check_claims. intros H.
  apply bind_returns in H as (expired & _ & H).
  destruct expired; [discriminate|].
  destruct (_ && _); [discriminate|].
  destruct (_ && _); [discriminate|].
  apply bind_returns in H as (scopes' & Hs & H).
  exists scopes'. split; [done|].
  destruct (_ && _) eqn:Hreq; [discriminate|].
  apply bind_returns in H as (e & _ & H). simplify_eq. simpl.
  split; [done|].
  apply andb_false_iff in Hreq as [Hreq|Hreq].
  - destruct (JWTVerifier.required_scopes self); [|discriminate].
    simpl. apply empty_subseteq.
  - apply negb_false_iff in Hreq. by apply bool_decide_eq_true in Hreq.
Qed.

Lemma load_access_token_some self now token p :
  JWTVerifier.load_access_token verified_claims repr_container
    extract_scopes self now token = Some p →
  ∃ claims scopes', verified_claims token = Some claims
    ∧ extract_scopes claims = Returns scopes'
    ∧ scopes p = scopes'
    ∧ (list_to_set (JWTVerifier.required_scopes self) : gset string)
        ⊆ list_to_set scopes'.
Proof.
  unfold JWTVerifier.load_access_token.
  destruct (verified_claims token) as [claims|]; [|discriminate].
  destruct (JWTVerifier.check_claims _ _ _ _ _ _) as [r|e] eqn:Hc;
    [|discriminate].
  intros ->. exists claims.
  apply check_claims_some in Hc as (scopes' & ? & ? & ?). eauto.
Qed.

End BaseFacts.

(** Where a token that lacks a required scope is rejected, in both
    strategies: by the claims-only verifier on the scopes as written in
    [scp], by the signature-verified one on the scopes after prefixing.
    In the claims-only strategy this needs a token with a scope set ([scp]
    a string or absent) on which the library raises nothing but its own
    errors. *)
Lemma missing_scope_rejected :
  (∀ jws_payload int_of_str int_str_ok self now token payload words,
     jws_payload token = Some payload →
     py_split (dict_get_default payload "scp" (PyStr "")) = Returns words →
     ¬ ((list_to_set (Opaque.required_scopes self) : gset string)
          ⊆ list_to_set words) →
     (∀ e, PyJWT.decode jws_payload int_of_str token
             (Opaque.audience self) (Opaque.issuers self)
             Opaque.decode_options now = Raises e →
           is_PyJWTError e = true) →
     Opaque.verify_token jws_payload int_of_str int_str_ok self now token
     = Returns None)
  ∧ (∀ verified_claims repr_container self now token claims scopes',
       verified_claims token = Some claims →
       Obo._extract_scopes self claims = Returns scopes' →
       ¬ ((list_to_set (JWTVerifier.required_scopes (Obo.base self))
             : gset string) ⊆ list_to_set scopes') →
       Obo.load_access_token verified_claims repr_container self now token
       = Returns None).
Proof.
  split.
  - intros jws_payload int_of_str int_str_ok self now token payload words
      Hjws Hsplit Hmiss Herr.
    destruct (decide (token = "")) as [->|Hne];
      [apply verify_token_no_token|].
    destruct (PyJWT.decode jws_payload int_of_str token
                (Opaque.audience self) (Opaque.issuers self)
                Opaque.decode_options now) as [claims|e] eqn:Hdec.
    + rewrite (verify_token_decoded _ _ _ _ _ _ _ Hne Hdec).
      apply decode_returns in Hdec as [Hp _].
      rewrite Hjws in Hp. simplify_eq.
      rewrite Hsplit. simpl.
      rewrite bool_decide_eq_false_2; [done|].
      by rewrite difference_empty_subseteq.
    + eapply verify_token_decode_error; [done|]. by apply Herr.
  - intros verified_claims repr_container self now token claims scopes'
      Hver Hext Hmiss.
    unfold Obo.load_access_token. f_equal.
    destruct (JWTVerifier.load_access_token _ _ _ _ _ _) as [p|] eqn:Hload;
      [|done].
    apply load_access_token_some in Hload
      as (claims' & scopes'' & Hver' & Hext' & _ & Hsub).
    rewrite Hver in Hver'. simplify_eq.
    rewrite Hext in Hext'. simplify_eq. done.
Qed.

(** Scopes {User.Read} against the required {User.Read, Mail.Read}, and an
    unrelated scope against the required [api://X/access_as_user]. *)
Lemma missing_scope_rejected_witness :
  Opaque.verify_token Opaque.example_payload Opaque.example_int_of_str
    Opaque.example_int_str_ok
    (Opaque.token_verifier "T") (1000 # 1) "one-scope" = Returns None
  ∧ Obo.load_access_token Obo.example_verified Obo.example_repr
      (Obo.token_verifier "X" "https://login.example/T/v2.0") (1000 # 1)
      "other-scope" = Returns None.
Proof.
  split.
  - apply (proj1 missing_scope_rejected Opaque.example_payload
             Opaque.example_int_of_str Opaque.example_int_str_ok
             (Opaque.token_verifier "T")
             (1000 # 1) "one-scope"
             (Opaque.example_claims (Some (PyStr "User.Read")))
             ["User.Read"]).
    + reflexivity.
    + vm_compute. reflexivity.
    + intros H. apply (bool_decide_pack _) in H. vm_compute in H. exact H.
    + intros e H. vm_compute in H. discriminate H.
  - apply (proj2 missing_scope_rejected Obo.example_verified
             Obo.example_repr
             (Obo.token_verifier "X" "https://login.example/T/v2.0")
             (1000 # 1) "other-scope"
             (<["exp" := PyInt 2000]>
                (<["aud" := PyStr "X"]>
                   (<["iss" := PyStr "https://login.example/T/v2.0"]>
                      (<["scp" := PyStr "profile"]> ∅))))
             ["api://X/profile"]).
    + reflexivity.
    + vm_compute. reflexivity.
    + intros H. apply (bool_decide_pack _) in H. vm_compute in H. exact H.
Defined.

(** C3.  The claim fails in the claims-only strategy at a token whose
    [exp] claim is a list: the token carries the scope [User.Read] alone
    where [User.Read] and [Mail.Read] are required, so its scope set is no
    superset of the required one, yet [int(exp)] raises [TypeError] inside
    [pyjwt.decode], which is no [PyJWTError], and [verify_token] raises it
    where the claim has it return [None]. *)
Theorem missing_scope_raises_on_exp_list :
  Examples.exp_payload "exp-list"
  = Some (Examples.exp_claims (PyList []) "User.Read")
  ∧ py_split (dict_get_default (Examples.exp_claims (PyList []) "User.Read")
                "scp" (PyStr ""))
    = Returns ["User.Read"]
  ∧ ¬ ((list_to_set (Opaque.required_scopes (Opaque.token_verifier "T"))
          : gset string) ⊆ list_to_set ["User.Read"])
  ∧ Opaque.verify_token Examples.exp_payload Opaque.example_int_of_str
      Opaque.example_int_str_ok (Opaque.token_verifier "T") (1000 # 1)
      "exp-list"
    = Raises TypeError.
Proof.
  split; [reflexivity|]. split; [vm_compute; reflexivity|].
  split; [|vm_compute; reflexivity].
  intros H. apply (bool_decide_pack _) in H. vm_compute in H. exact H.
Qed.

(** ** Scope normalisation *)

Lemma qualify_has_slash (prefix s : string) :
  has_slash (Obo.qualify prefix s) = true.
Proof.
  unfold Obo.qualify. destruct (has_slash s) eqn:Hs; [done|].
  apply has_slash_prefixed.
Qed.

Lemma qualify_idempotent (prefix s : string) :
  Obo.qualify prefix (Obo.qualify prefix s) = Obo.qualify prefix s.
Proof.
  unfold Obo.qualify at 1. by rewrite qualify_has_slash.
Qed.

Lemma normalize_short (s ns : string) :
  has_slash s = false → ns ≠ "" → Obo.normalize s ns = ns +:+ "/" +:+ s.
Proof.
  intros Hs Hns. unfold Obo.normalize, Obo.qualify.
  apply truthy_str_true in Hns. by rewrite Hns, Hs.
Qed.

(** [_extract_scopes] normalises each scope the base class extracts. *)
Lemma _extract_scopes_normalize (self : Obo.AzureJWTVerifier)
    (claims : dict) :
  Obo._extract_scopes self claims =
    (scopes ← JWTVerifier._extract_scopes claims;
     Returns (map (λ s, Obo.normalize s (Obo._scope_prefix self)) scopes)).
Proof.
  unfold Obo._extract_scopes, Obo.normalize.
  destruct (JWTVerifier._extract_scopes claims) as [l|e]; simpl; [|done].
  destruct (negb (String.eqb (Obo._scope_prefix self) "")); [done|].
  by rewrite map_id.
Qed.

(** C5, as stated, fails for the empty namespace: a scope without separator
    is returned as it is, not prefixed with the namespace and a
    separator. *)
Lemma normalize_empty_namespace_counterexample :
  has_slash "access_as_user" = false
  ∧ Obo.normalize "access_as_user" "" = "access_as_user"
  ∧ Obo.normalize "access_as_user" "" ≠ "" +:+ "/" +:+ "access_as_user".
Proof. repeat split. discriminate. Qed.

(** C5, amended.  Normalisation is a total function and idempotent for
    every scope and namespace; a scope with a separator is returned
    unchanged; a scope without one is prefixed with the namespace and a
    separator when the namespace is not empty, and returned unchanged when
    it is empty. *)
Theorem normalize_idempotent (s ns : string) :
  Obo.normalize (Obo.normalize s ns) ns = Obo.normalize s ns
  ∧ (has_slash s = true → Obo.normalize s ns = s)
  ∧ (has_slash s = false → ns ≠ "" →
     Obo.normalize s ns = ns +:+ "/" +:+ s)
  ∧ (ns = "" → Obo.normalize s ns = s).
Proof.
  unfold Obo.normalize. repeat split.
  - destruct (truthy (PyStr ns)); [apply qualify_idempotent | done].
  - intros Hs. unfold Obo.qualify. rewrite Hs. by destruct (truthy _).
  - apply normalize_short.
  - by intros ->.
Qed.

(** The scope [access_as_user] under the namespace [api://X], short and
    qualified, and under the empty namespace. *)
Lemma normalize_idempotent_witness :
  Obo.normalize "api://X/access_as_user" "api://X" = "api://X/access_as_user"
  ∧ Obo.normalize "access_as_user" "api://X" = "api://X/access_as_user"
  ∧ Obo.normalize "access_as_user" "" = "access_as_user".
Proof.
  split; [|split].
  - apply (proj1 (proj2 (normalize_idempotent
                           "api://X/access_as_user" "api://X"))).
    reflexivity.
  - apply (proj1 (proj2 (proj2 (normalize_idempotent
                                  "access_as_user" "api://X")))).
    + reflexivity.
    + discriminate.
  - apply (proj2 (proj2 (proj2 (normalize_idempotent
                                  "access_as_user" "")))).
    reflexivity.
Defined.

(** C6, as stated, fails in the claims-only strategy: the access token
    carries the scopes as the token wrote them, in short form, and for no
    namespace their qualified form. *)
Lemma verify_token_scopes_unqualified_counterexample :
  ∃ p, Opaque.verify_token Opaque.example_payload Opaque.example_int_of_str
    Opaque.example_int_str_ok
         (Opaque.token_verifier "T") (1000 # 1) "both-scopes"
       = Returns (Some p)
     ∧ scopes p = ["Mail.Read"; "User.Read"]
     ∧ has_slash "User.Read" = false
     ∧ ∀ ns, Obo.qualify ns "User.Read" ∉ scopes p.
Proof.
  eexists. split; [vm_compute; reflexivity|]. simpl.
  split; [reflexivity|]. split; [reflexivity|].
  intros ns Hin.
  assert (has_slash (Obo.qualify ns "User.Read") = true) as Hs
    by apply qualify_has_slash.
  apply elem_of_cons in Hin as [Heq|Hin].
  - rewrite Heq in Hs. discriminate Hs.
  - apply list_elem_of_singleton in Hin. rewrite Hin in Hs. discriminate Hs.
Qed.

(** C6, amended.  An access token of the signature-verified strategy with a
    non-empty scope prefix carries the normalised scopes: each is the
    normalisation of a scope the token carries, all are qualified, and
    every short-form scope of the token appears with the prefix.  An access
    token of the claims-only strategy, which has no namespace, carries the
    scopes exactly as the token's [scp] string lists them. *)
Theorem access_token_scopes :
  (∀ verified_claims repr_container self now token p,
     Obo.load_access_token verified_claims repr_container self now token
       = Returns (Some p) →
     Obo._scope_prefix self ≠ "" →
     ∃ claims raw,
       verified_claims token = Some claims
       ∧ JWTVerifier._extract_scopes claims = Returns raw
       ∧ scopes p = map (λ s, Obo.normalize s (Obo._scope_prefix self)) raw
       ∧ (∀ s, s ∈ scopes p → has_slash s = true)
       ∧ (∀ s, s ∈ raw → has_slash s = false →
               Obo._scope_prefix self +:+ "/" +:+ s ∈ scopes p))
  ∧ (∀ jws_payload int_of_str int_str_ok self now token p,
       Opaque.verify_token jws_payload int_of_str int_str_ok self now token
         = Returns (Some p) →
       ∃ claims words,
         jws_payload token = Some claims
         ∧ py_split (dict_get_default claims "scp" (PyStr ""))
             = Returns words
         ∧ ∀ s, s ∈ scopes p ↔ s ∈ words).
Proof.
  split.
  - intros verified_claims repr_container self now token p Hload Hns.
    unfold Obo.load_access_token in Hload. injection Hload as Hload.
    apply load_access_token_some in Hload
      as (claims & scopes' & Hver & Hext & Hp & _).
    rewrite _extract_scopes_normalize in Hext.
    apply bind_returns in Hext as (raw & Hraw & Hext).
    assert (scopes p
            = map (λ s, Obo.normalize s (Obo._scope_prefix self)) raw)
      as Hmap by (simpl in Hext; congruence).
    clear Hp Hext. rename Hmap into Hp.
    exists claims, raw. repeat split; try done.
    + intros s Hs. rewrite Hp in Hs.
      apply list_elem_of_fmap in Hs as (s' & -> & _).
      unfold Obo.normalize.
      apply truthy_str_true in Hns. rewrite Hns.
      apply qualify_has_slash.
    + intros s Hs Hshort. rewrite Hp.
      apply list_elem_of_fmap. exists s. split; [|done].
      symmetry. by apply normalize_short.
  - intros jws_payload int_of_str int_str_ok self now token p Hv.
    destruct (decide (token = "")) as [->|Hne]; [discriminate|].
    destruct (PyJWT.decode jws_payload int_of_str token
                (Opaque.audience self) (Opaque.issuers self)
                Opaque.decode_options now) as [claims|e] eqn:Hdec.
    + rewrite (verify_token_decoded _ _ _ _ _ _ _ Hne Hdec) in Hv.
      apply bind_returns in Hv as (words & Hsplit & Hv).
      destruct (negb _); [discriminate|].
      apply bind_returns in Hv as (exp & _ & Hv).
      apply bind_returns in Hv as (access & Hinit & Hv).
      apply AccessToken_init_returns in Hinit as (-> & _ & _).
      simplify_eq.
      apply decode_returns in Hdec as [Hp _].
      exists claims, words. repeat split; try done; simpl.
      * intros Hs. apply elem_of_elements in Hs.
        by apply elem_of_list_to_set in Hs.
      * intros Hs. apply elem_of_elements. by apply elem_of_list_to_set.
    + unfold Opaque.verify_token in Hv.
      destruct (negb (truthy (PyStr token))); [discriminate|].
      rewrite Hdec in Hv. destruct (is_PyJWTError e); discriminate.
Qed.

Lemma access_token_scopes_witness :
  (∃ claims raw,
     Obo.example_verified "short-scope" = Some claims
     ∧ JWTVerifier._extract_scopes claims = Returns raw
     ∧ ["api://X/access_as_user"]
       = map (λ s, Obo.normalize s "api://X") raw
     ∧ (∀ s, s ∈ ["api://X/access_as_user"] → has_slash s = true)
     ∧ (∀ s, s ∈ raw → has_slash s = false →
             "api://X" +:+ "/" +:+ s ∈ ["api://X/access_as_user"]))
  ∧ (∃ claims words,
       Opaque.example_payload "both-scopes" = Some claims
       ∧ py_split (dict_get_default claims "scp" (PyStr ""))
           = Returns words
       ∧ ∀ s, s ∈ ["Mail.Read"; "User.Read"] ↔ s ∈ words).
Proof.
  split.
  - apply (proj1 access_token_scopes Obo.example_verified Obo.example_repr
             (Obo.token_verifier "X" "https://login.example/T/v2.0")
             (1000 # 1) "short-scope"
             {| token := "short-scope";
                client_id := PyStr "unknown";
                scopes := ["api://X/access_as_user"];
                expires_at := PyInt 2000;
                claims := <["exp" := PyInt 2000]>
                  (<["aud" := PyStr "X"]>
                     (<["iss" := PyStr "https://login.example/T/v2.0"]>
                        (<["scp" := PyStr "access_as_user"]> ∅))) |}).
    + vm_compute. reflexivity.
    + discriminate.
  - apply (proj2 access_token_scopes Opaque.example_payload
             Opaque.example_int_of_str Opaque.example_int_str_ok
             (Opaque.token_verifier "T")
             (1000 # 1) "both-scopes"
             {| token := "both-scopes";
                client_id := PyStr "unknown";
                scopes := ["Mail.Read"; "User.Read"];
                expires_at := PyInt 2000;
                claims := Opaque.example_claims
                            (Some (PyStr "User.Read Mail.Read")) |}).
    vm_compute. reflexivity.
Defined.

(** ** The on-behalf-of exchange *)

(** C2, as stated, fails: on a response that has an error and no access
    token the exchange raises [RuntimeError]; it returns no value. *)
Lemma _obo_exchange_raises_counterexample :
  Obo._obo_exchange Obo.example_response Obo.example_repr "rejected"
  = Raises (RuntimeError
      "OBO token exchange failed: invalid_grant AADSTS50013: assertion is not valid")
  ∧ ¬ ∃ v, Obo._obo_exchange Obo.example_response Obo.example_repr
             "rejected" = Returns v.
Proof.
  split; [vm_compute; reflexivity|].
  intros [v Hv]. vm_compute in Hv. discriminate Hv.
Qed.

(** C2, amended.  When the provider's response has no access token, with or
    without an error field, the exchange raises a [RuntimeError] whose
    message carries the provider's error code and description; a field that
    is absent reads "None", a string field reads as it is. *)
Theorem _obo_exchange_failure acquire_token_on_behalf_of repr_container
    assertion result :
  acquire_token_on_behalf_of assertion
    ["https://graph.microsoft.com/.default"] = result →
  result !! "access_token" = None →
  Obo._obo_exchange acquire_token_on_behalf_of repr_container assertion
  = Raises (RuntimeError
      ("OBO token exchange failed: "
       +:+ py_str repr_container (dict_get result "error") +:+ " "
       +:+ py_str repr_container (dict_get result "error_description")))
  ∧ ∀ field,
      (result !! field = None →
       py_str repr_container (dict_get result field) = "None")
      ∧ (∀ s, result !! field = Some (PyStr s) →
              py_str repr_container (dict_get result field) = s).
Proof.
  intros Hres Hnone. split.
  - unfold Obo._obo_exchange. rewrite Hres.
    apply dict_contains_false in Hnone. by rewrite Hnone.
  - intros field. unfold dict_get.
    split; [intros -> | intros s ->]; reflexivity.
Qed.

(** A response with both fields, and an empty one. *)
Lemma _obo_exchange_failure_witness :
  Obo._obo_exchange Obo.example_response Obo.example_repr "rejected"
  = Raises (RuntimeError
      "OBO token exchange failed: invalid_grant AADSTS50013: assertion is not valid")
  ∧ Obo._obo_exchange Obo.example_response Obo.example_repr "empty"
    = Raises (RuntimeError "OBO token exchange failed: None None").
Proof.
  split.
  - refine (proj1 (_obo_exchange_failure Obo.example_response
                     Obo.example_repr "rejected" _ eq_refl _)).
    vm_compute. reflexivity.
  - refine (proj1 (_obo_exchange_failure Obo.example_response
                     Obo.example_repr "empty" _ eq_refl _)).
    reflexivity.
Defined.

(** C7.  The exchange ends in exactly one of two ways, decided by the
    presence of an access token in the response alone: it returns the
    access token and nothing of the error fields, also when the response
    has both, or it raises the error and returns no token. *)
Theorem _obo_exchange_exclusive acquire_token_on_behalf_of repr_container
    assertion :
  match acquire_token_on_behalf_of assertion
          ["https://graph.microsoft.com/.default"] !! "access_token" with
  | Some access_token =>
      Obo._obo_exchange acquire_token_on_behalf_of repr_container assertion
      = Returns access_token
  | None =>
      ∃ msg,
        Obo._obo_exchange acquire_token_on_behalf_of repr_container assertion
        = Raises (RuntimeError msg)
  end.
Proof.
  unfold Obo._obo_exchange.
  set (result := acquire_token_on_behalf_of assertion _).
  destruct (result !! "access_token") as [v|] eqn:Hv.
  - rewrite (proj2 (dict_contains_true _ _)) by eauto.
    simpl. unfold dict_getitem. by rewrite Hv.
  - rewrite (proj2 (dict_contains_false _ _)) by done.
    simpl. eauto.
Qed.

(** A response with an access token and an error field gives the token. *)
Example _obo_exchange_both_fields :
  Obo._obo_exchange Obo.example_response Obo.example_repr "both"
  = Returns (PyStr "graph-token").
Proof. vm_compute. reflexivity. Qed.

(** ** The shared Graph client *)

Lemma _get_graph_client_first (st : Obo.state) :
  Obo._graph_client st = None →
  Obo._get_graph_client st =
    (length (Obo.constructed st),
     {| Obo._graph_client := Some (length (Obo.constructed st));
        Obo.constructed := Obo.constructed st
                             ++ [length (Obo.constructed st)];
        Obo.releases := Obo.releases st |}).
Proof. unfold Obo._get_graph_client. by intros ->. Qed.

Lemma _get_graph_client_again (st : Obo.state) (c : Obo.client) :
  Obo._graph_client st = Some c → Obo._get_graph_client st = (c, st).
Proof. unfold Obo._get_graph_client. by intros ->. Qed.

Lemma _close_graph_client_absent (loop : Obo.event_loop) (st : Obo.state) :
  Obo._graph_client st = None → Obo._close_graph_client loop st = st.
Proof. unfold Obo._close_graph_client. by intros ->. Qed.

Lemma _close_graph_client_present (loop : Obo.event_loop) (st : Obo.state)
    (c : Obo.client) :
  Obo._graph_client st = Some c →
  ∃ r, Obo.released_client r = c
     ∧ Obo._close_graph_client loop st =
         {| Obo._graph_client := None;
            Obo.constructed := Obo.constructed st;
            Obo.releases := Obo.releases st ++ [r] |}.
Proof.
  unfold Obo._close_graph_client. intros ->.
  eexists. split; [|reflexivity]. by destruct loop.
Qed.

Lemma run_app (calls calls' : list Obo.call) (st : Obo.state) :
  Obo.run (calls ++ calls') st = Obo.run calls' (Obo.run calls st).
Proof. apply fold_left_app. Qed.

Lemma run_gets (n : nat) (st : Obo.state) (c : Obo.client) :
  Obo._graph_client st = Some c → Obo.run (repeat Obo.Get n) st = st.
Proof.
  intros Hc. induction n as [|n IH]; [done|]. simpl.
  by rewrite (_get_graph_client_again st c).
Qed.

Lemma run_closes (loops : list Obo.event_loop) (st : Obo.state) :
  Obo._graph_client st = None → Obo.run (map Obo.Close loops) st = st.
Proof.
  intros Hc. induction loops as [|l loops IH]; [done|]. simpl.
  by rewrite _close_graph_client_absent.
Qed.

(** C8.  From the start of the process, any number of uses of the client
    construct it once, at the first use, and leave the handle set; the
    close operation then starts exactly one [aclose()] on that client and
    leaves the handle absent; closing again any number of times, or
    closing when no client was constructed, releases nothing more. *)
Theorem graph_client_once (n : nat) (loop : Obo.event_loop)
    (loops : list Obo.event_loop) :
  Obo._graph_client Obo.initial = None
  ∧ Obo.run (repeat Obo.Get (S n)) Obo.initial
    = {| Obo._graph_client := Some 0;
         Obo.constructed := [0];
         Obo.releases := [] |}
  ∧ (∃ r, Obo.released_client r = 0
        ∧ Obo.run (repeat Obo.Get (S n) ++ Obo.Close loop
                     :: map Obo.Close loops) Obo.initial
          = {| Obo._graph_client := None;
               Obo.constructed := [0];
               Obo.releases := [r] |})
  ∧ Obo.run (Obo.Close loop :: map Obo.Close loops) Obo.initial
    = Obo.initial.
Proof.
  assert (Obo.run (repeat Obo.Get (S n)) Obo.initial
          = {| Obo._graph_client := Some 0;
               Obo.constructed := [0];
               Obo.releases := [] |}) as Hgets.
  { change (repeat Obo.Get (S n)) with ([Obo.Get] ++ repeat Obo.Get n).
    rewrite run_app. by apply (run_gets n _ 0). }
  repeat split; [done| |].
  - rewrite run_app, Hgets.
    exists (match loop with
            | Obo.LoopRunning => Obo.CreateTask 0
            | _ => Obo.Run 0
            end).
    split; [by destruct loop|].
    change (Obo.Close loop :: map Obo.Close loops)
      with ([Obo.Close loop] ++ map Obo.Close loops).
    rewrite run_app. by apply run_closes.
  - by apply (run_closes (loop :: loops)).
Qed.

(** ** More on the claims-only verifier *)

Section DecodeInversion.

Variable jws_payload : string → option dict.
Variable int_of_str : string → option Z.

Lemma validate_exp_returns payload now :
  PyJWT.validate_exp int_of_str payload now = Returns tt →
  ∃ v exp, payload !! "exp" = Some v
    ∧ PyJWT.py_int int_of_str v = Returns exp
    ∧ (now < inject_Z exp)%Q.
Proof.
  unfold PyJWT.validate_exp, dict_getitem.
  destruct (payload !! "exp") as [v|]; simpl; [|discriminate].
  destruct (PyJWT.py_int int_of_str v) as [exp|e] eqn:Hint.
  - destruct (Qle_bool (inject_Z exp) now) eqn:Hle; [discriminate|].
    intros _. exists v, exp. repeat split; [done|].
    apply Qnot_le_lt. intros H. apply Qle_bool_iff in H. congruence.
  - by destruct e.
Qed.

(** What [int] raises on a value: [ValueError] on a string that is no
    number and on NaN, [OverflowError] on an infinity, [TypeError] on
    [None], a list or an object. *)
Lemma py_int_raises v e :
  PyJWT.py_int int_of_str v = Raises e →
  e = ValueError
  ∨ e = OverflowError
    ∧ (v = PyFloat Infinity ∨ v = PyFloat NegInfinity)
  ∨ e = TypeError
    ∧ (v = PyNone ∨ (∃ items, v = PyList items)
       ∨ (∃ entries, v = PyDict entries)).
Proof.
  destruct v as [| | |s|items|entries|[q| | |]]; simpl; intros H;
    try discriminate; simplify_eq; eauto 7.
  destruct (int_of_str s); [discriminate|]. simplify_eq. auto.
Qed.

Lemma validate_exp_raises payload now e :
  PyJWT.validate_exp int_of_str payload now = Raises e →
  is_PyJWTError e = true
  ∨ e = KeyError "exp" ∧ payload !! "exp" = None
  ∨ e ≠ ValueError
    ∧ ∃ v, payload !! "exp" = Some v
        ∧ PyJWT.py_int int_of_str v = Raises e.
Proof.
  unfold PyJWT.validate_exp, dict_getitem.
  destruct (payload !! "exp") as [v|]; simpl.
  - destruct (PyJWT.py_int int_of_str v) as [exp|e'] eqn:Hint.
    + destruct (Qle_bool _ _); [|discriminate].
      intros H. simplify_eq. by left.
    + pose proof (py_int_raises _ _ Hint) as [->|[[-> _]|[-> _]]].
      * intros H. simplify_eq. by left.
      * intros H. simplify_eq. right. right. split; [done|]. eauto.
      * intros H. simplify_eq. right. right. split; [done|]. eauto.
  - intros H. simplify_eq. right. left. done.
Qed.

Lemma validate_iss_returns payload issuer :
  PyJWT.validate_iss payload issuer = Returns tt →
  ∃ iss, payload !! "iss" = Some (PyStr iss) ∧ iss ∈ issuer.
Proof.
  unfold PyJWT.validate_iss.
  destruct (payload !! "iss") as [[| | |iss| | |]|]; try discriminate.
  case_bool_decide; [|discriminate]. eauto.
Qed.

Lemma validate_iss_raises payload issuer e :
  PyJWT.validate_iss payload issuer = Raises e → is_PyJWTError e = true.
Proof.
  unfold PyJWT.validate_iss.
  destruct (payload !! "iss") as [[| | |iss| | |]|];
    try (by intros [= <-]).
  case_bool_decide; [discriminate|]. by intros [= <-].
Qed.

(** The audience check passes on the audience itself and on a list of
    strings that contains it. *)
Lemma validate_aud_returns payload audience :
  PyJWT.validate_aud payload audience = Returns tt →
  dict_get payload "aud" = PyStr audience
  ∨ ∃ items, dict_get payload "aud" = PyList items
      ∧ PyStr audience ∈ items
      ∧ forallb is_str items = true.
Proof.
  unfold PyJWT.validate_aud.
  destruct (negb (truthy (dict_get payload "aud"))); [discriminate|].
  destruct (dict_get payload "aud") as [| | |a|items| |];
    try discriminate.
  - destruct (String.eqb_spec a audience) as [->|]; [|discriminate].
    by left.
  - destruct (forallb is_str items) eqn:Hall; [|discriminate].
    destruct (existsb _ items) eqn:Hex; [|discriminate].
    intros _. right. exists items. repeat split; [|done].
    apply existsb_exists in Hex as (c & Hin & Hc).
    apply list_elem_of_In in Hin.
    destruct c as [| | |a| | |]; try discriminate.
    apply String.eqb_eq in Hc. by subst.
Qed.

Lemma validate_aud_raises payload audience e :
  PyJWT.validate_aud payload audience = Raises e → is_PyJWTError e = true.
Proof.
  unfold PyJWT.validate_aud.
  destruct (negb (truthy (dict_get payload "aud")));
    [by intros [= <-]|].
  destruct (dict_get payload "aud") as [| | |a|items| |];
    try (by intros [= <-]).
  - destruct (String.eqb a audience); [discriminate | by intros [= <-]].
  - destruct (forallb is_str items); [|by intros [= <-]].
    destruct (existsb _ items); [discriminate | by intros [= <-]].
Qed.

(** What a token [pyjwt.decode] lets through, under the options of the
    verifier, has shown. *)
Lemma decode_accepts token audience issuer now claims :
  PyJWT.decode jws_payload int_of_str token audience issuer
    Opaque.decode_options now = Returns claims →
  jws_payload token = Some claims
  ∧ (∃ v exp, claims !! "exp" = Some v
       ∧ PyJWT.py_int int_of_str v = Returns exp
       ∧ (now < inject_Z exp)%Q)
  ∧ (∃ iss, claims !! "iss" = Some (PyStr iss) ∧ iss ∈ issuer)
  ∧ (dict_get claims "aud" = PyStr audience
     ∨ ∃ items, dict_get claims "aud" = PyList items
         ∧ PyStr audience ∈ items
         ∧ forallb is_str items = true).
Proof.
  intros Hdec. pose proof Hdec as Hdec'.
  apply decode_returns in Hdec' as [Hjws Hreq].
  split; [done|].
  unfold PyJWT.decode in Hdec. rewrite Hjws in Hdec.
  apply bind_returns in Hdec as ([] & _ & Hdec).
  apply bind_returns in Hdec as ([] & Hexp & Hdec).
  apply bind_returns in Hdec as ([] & Hiss & Hdec).
  apply bind_returns in Hdec as ([] & Haud & _).
  simpl in Hexp, Hiss, Haud.
  destruct (Hreq "exp") as (v & Hv & _); [set_solver|].
  rewrite (proj2 (dict_contains_true "exp" claims)) in Hexp by eauto.
  split; [by apply validate_exp_returns|].
  split; [by apply validate_iss_returns|].
  by apply validate_aud_returns.
Qed.

(** An exception of [pyjwt.decode] that is not a [PyJWTError] is one
    that [int] raises on the [exp] claim: a [TypeError] or an
    [OverflowError]. *)
Lemma decode_raises token audience issuer now e :
  PyJWT.decode jws_payload int_of_str token audience issuer
    Opaque.decode_options now = Raises e →
  is_PyJWTError e = true
  ∨ e ≠ ValueError
    ∧ ∃ payload v, jws_payload token = Some payload
        ∧ payload !! "exp" = Some v
        ∧ v ≠ PyNone
        ∧ PyJWT.py_int int_of_str v = Raises e.
Proof.
  unfold PyJWT.decode.
  destruct (jws_payload token) as [payload|];
    [|intros H; simplify_eq; by left].
  destruct (PyJWT.validate_required_claims payload
              (PyJWT.require Opaque.decode_options)) as [[]|e'] eqn:Hreq.
  2:{ simpl. intros H. simplify_eq. left.
      by eapply validate_required_claims_raises. }
  pose proof (validate_required_claims_ok _ _ Hreq "exp") as Hexp.
  destruct Hexp as (v & Hv & Hnone); [set_solver|].
  simpl. rewrite (proj2 (dict_contains_true "exp" payload)) by eauto.
  destruct (PyJWT.validate_exp int_of_str payload now) as [[]|e'] eqn:Hexp.
  2:{ simpl. intros H. simplify_eq.
      apply validate_exp_raises in Hexp
        as [?|[[_ Hk]|(Hne & v' & Hv' & Hint)]]; [by left|congruence|].
      right. split; [done|]. exists payload, v'.
      rewrite Hv in Hv'. by simplify_eq. }
  simpl.
  destruct (PyJWT.validate_iss payload issuer) as [[]|e'] eqn:Hiss.
  2:{ simpl. intros H. simplify_eq. left. by eapply validate_iss_raises. }
  simpl.
  destruct (PyJWT.validate_aud payload audience) as [[]|e'] eqn:Haud.
  2:{ simpl. intros H. simplify_eq. left. by eapply validate_aud_raises. }
  discriminate.
Qed.

Variable int_str_ok : string → bool.

(** What an accepted token has gone through. *)
Lemma verify_token_some self now token p :
  Opaque.verify_token jws_payload int_of_str int_str_ok self now token
    = Returns (Some p) →
  ∃ claims words exp,
    token ≠ ""
    ∧ PyJWT.decode jws_payload int_of_str token (Opaque.audience self)
        (Opaque.issuers self) Opaque.decode_options now = Returns claims
    ∧ py_split (dict_get_default claims "scp" (PyStr "")) = Returns words
    ∧ (list_to_set (Opaque.required_scopes self) : gset string)
        ⊆ list_to_set words
    ∧ claims !! "exp" = Some exp
    ∧ valid_optional_int int_str_ok exp = true
    ∧ is_str (py_or (py_or (dict_get claims "appid")
                           (dict_get claims "azp"))
                    (PyStr "unknown")) = true
    ∧ p = {| token := token;
             client_id := py_or (py_or (dict_get claims "appid")
                                       (dict_get claims "azp"))
                                (PyStr "unknown");
             scopes := elements (list_to_set words : gset string);
             expires_at := exp;
             claims := claims |}.
Proof.
  intros Hv.
  destruct (decide (token = "")) as [->|Hne]; [discriminate|].
  destruct (PyJWT.decode jws_payload int_of_str token
              (Opaque.audience self) (Opaque.issuers self)
              Opaque.decode_options now) as [claims|e] eqn:Hdec.
  - rewrite (verify_token_decoded _ _ _ _ _ _ _ Hne Hdec) in Hv.
    apply bind_returns in Hv as (words & Hsplit & Hv).
    destruct (bool_decide _) eqn:Hmiss; [|discriminate]. simpl in Hv.
    apply bind_returns in Hv as (exp & Hexp & Hv).
    apply bind_returns in Hv as (access & Hinit & Hv).
    apply AccessToken_init_returns in Hinit as (-> & Hcid & Hvalid).
    exists claims, words, exp. repeat split; try done.
    + apply difference_empty_subseteq. by apply bool_decide_eq_true in Hmiss.
    + unfold dict_getitem in Hexp.
      destruct (claims !! "exp"); by simplify_eq.
    + by simplify_eq.
  - unfold Opaque.verify_token in Hv.
    destruct (negb (truthy (PyStr token))); [discriminate|].
    rewrite Hdec in Hv. destruct (is_PyJWTError e); discriminate.
Qed.

End DecodeInversion.

(** X1.  The claims-only verifier accepts a token only after every check:
    the access token carries the token and its payload, the [exp] claim
    lies strictly after the current time, the issuer is one of the
    configured ones, the audience is the configured one (alone or in a
    list of strings), and every required scope is among the scopes. *)
Theorem verify_token_sound jws_payload int_of_str int_str_ok self now tok p :
  Opaque.verify_token jws_payload int_of_str int_str_ok self now tok
    = Returns (Some p) →
  token p = tok
  ∧ jws_payload tok = Some (claims p)
  ∧ claims p !! "exp" = Some (expires_at p)
  ∧ (∃ exp, PyJWT.py_int int_of_str (expires_at p) = Returns exp
       ∧ (now < inject_Z exp)%Q)
  ∧ (∃ iss, claims p !! "iss" = Some (PyStr iss)
       ∧ iss ∈ Opaque.issuers self)
  ∧ (dict_get (claims p) "aud" = PyStr (Opaque.audience self)
     ∨ ∃ items, dict_get (claims p) "aud" = PyList items
         ∧ PyStr (Opaque.audience self) ∈ items
         ∧ forallb is_str items = true)
  ∧ (∀ r, r ∈ Opaque.required_scopes self → r ∈ scopes p).
Proof.
  intros Hv.
  apply verify_token_some in Hv
    as (cl & words & exp & Hne & Hdec & Hsplit & Hsub & Hexp & _ & _ & ->).
  apply decode_accepts in Hdec
    as (Hjws & (v & e & Hv & Hint & Hlt) & Hiss & Haud).
  simpl. rewrite Hexp in Hv. simplify_eq.
  split; [done|]. split; [done|]. split; [done|].
  split; [by exists e|]. split; [done|]. split; [done|].
  intros r Hr. apply elem_of_elements, Hsub.
  by apply elem_of_list_to_set.
Qed.

Lemma verify_token_sound_witness :
  token Examples.accepted = "both-scopes"
  ∧ Opaque.example_payload "both-scopes" = Some (claims Examples.accepted)
  ∧ claims Examples.accepted !! "exp" = Some (expires_at Examples.accepted)
  ∧ (∃ exp, PyJWT.py_int Opaque.example_int_of_str
              (expires_at Examples.accepted) = Returns exp
       ∧ (1000 # 1 < inject_Z exp)%Q)
  ∧ (∃ iss, claims Examples.accepted !! "iss" = Some (PyStr iss)
       ∧ iss ∈ Opaque.issuers (Opaque.token_verifier "T"))
  ∧ (dict_get (claims Examples.accepted) "aud"
     = PyStr (Opaque.audience (Opaque.token_verifier "T"))
     ∨ ∃ items, dict_get (claims Examples.accepted) "aud" = PyList items
         ∧ PyStr (Opaque.audience (Opaque.token_verifier "T")) ∈ items
         ∧ forallb is_str items = true)
  ∧ (∀ r, r ∈ Opaque.required_scopes (Opaque.token_verifier "T") →
          r ∈ scopes Examples.accepted).
Proof.
  apply (verify_token_sound Opaque.example_payload
           Opaque.example_int_of_str Opaque.example_int_str_ok
           (Opaque.token_verifier "T")
           (1000 # 1) "both-scopes" Examples.accepted).
  vm_compute. reflexivity.
Defined.

(** X2.  On a token whose payload can be read, the claims-only verifier
    raises in four cases only: [TypeError] when the [exp] claim is a list
    or an object, [OverflowError] when it is an infinity,
    [AttributeError] when the [scp] claim is present and not a string, and
    pydantic's [ValidationError] when the client identifier taken from
    [appid] and [azp] is not a string or the [exp] claim is not an
    integer. *)
Theorem verify_token_raises_only jws_payload int_of_str int_str_ok self now
    tok payload e :
  jws_payload tok = Some payload →
  Opaque.verify_token jws_payload int_of_str int_str_ok self now tok
    = Raises e →
  e = TypeError
  ∧ (∃ v, payload !! "exp" = Some v
       ∧ ((∃ items, v = PyList items) ∨ (∃ entries, v = PyDict entries)))
  ∨ e = OverflowError
    ∧ (payload !! "exp" = Some (PyFloat Infinity)
       ∨ payload !! "exp" = Some (PyFloat NegInfinity))
  ∨ e = AttributeError
    ∧ (∃ v, payload !! "scp" = Some v ∧ is_str v = false)
  ∨ e = ValidationError
    ∧ (is_str (py_or (py_or (dict_get payload "appid")
                            (dict_get payload "azp"))
                     (PyStr "unknown")) = false
       ∨ ∃ v, payload !! "exp" = Some v ∧ ∀ n, v ≠ PyInt n).
Proof.
  intros Hjws Hv.
  destruct (decide (tok = "")) as [->|Hne]; [discriminate|].
  destruct (PyJWT.decode jws_payload int_of_str tok
              (Opaque.audience self) (Opaque.issuers self)
              Opaque.decode_options now) as [cl|e'] eqn:Hdec.
  - rewrite (verify_token_decoded _ _ _ _ _ _ _ Hne Hdec) in Hv.
    apply decode_returns in Hdec as [Hp Hreq].
    rewrite Hjws in Hp. simplify_eq.
    destruct (py_split (dict_get_default cl "scp" (PyStr "")))
      as [words|e'] eqn:Hsplit.
    + simpl in Hv. destruct (negb _); [discriminate|].
      destruct (Hreq "exp") as (x & Hx & _); [set_solver|].
      unfold dict_getitem in Hv. rewrite Hx in Hv. simpl in Hv.
      destruct (AccessToken_init _ _ _ _ _ _) as [access|e'] eqn:Hinit;
        [discriminate|].
      simpl in Hv. simplify_eq.
      apply AccessToken_init_raises in Hinit as [-> [Hcid|Hvalid]].
      * right. right. right. split; [done|]. by left.
      * right. right. right. split; [done|]. right.
        exists x. split; [done|]. by intros n ->.
    + simpl in Hv. simplify_eq. right. right. left.
      unfold dict_get_default in Hsplit.
      destruct (cl !! "scp") as [v|] eqn:Hscp; simpl in Hsplit;
        [|discriminate].
      destruct v; simpl in Hsplit; simplify_eq; eauto.
  - unfold Opaque.verify_token in Hv.
    apply truthy_str_true in Hne. rewrite Hne, Hdec in Hv. simpl in Hv.
    destruct (is_PyJWTError e') eqn:He; [discriminate|]. simplify_eq.
    apply decode_raises in Hdec
      as [He'|(Hnv & payload' & v & Hp & Hx & Hnone & Hint)]; [congruence|].
    rewrite Hjws in Hp. simplify_eq.
    apply py_int_raises in Hint
      as [->|[(-> & Hinf)|(-> & [->|Hcont])]]; try done.
    + right. left. split; [done|]. destruct Hinf as [-> | ->]; auto.
    + left. eauto.
Qed.

Lemma verify_token_raises_only_witness :
  AttributeError = TypeError
  ∧ (∃ v, Opaque.example_claims
            (Some (PyList [PyStr "User.Read"; PyStr "Mail.Read"]))
          !! "exp" = Some v
       ∧ ((∃ items, v = PyList items) ∨ (∃ entries, v = PyDict entries)))
  ∨ AttributeError = OverflowError
    ∧ (Opaque.example_claims
         (Some (PyList [PyStr "User.Read"; PyStr "Mail.Read"]))
       !! "exp" = Some (PyFloat Infinity)
       ∨ Opaque.example_claims
           (Some (PyList [PyStr "User.Read"; PyStr "Mail.Read"]))
         !! "exp" = Some (PyFloat NegInfinity))
  ∨ AttributeError = AttributeError
    ∧ (∃ v, Opaque.example_claims
              (Some (PyList [PyStr "User.Read"; PyStr "Mail.Read"]))
            !! "scp" = Some v ∧ is_str v = false)
  ∨ AttributeError = ValidationError
    ∧ (is_str (py_or (py_or (dict_get
                               (Opaque.example_claims
                                  (Some (PyList [PyStr "User.Read";
                                                 PyStr "Mail.Read"])))
                               "appid")
                            (dict_get
                               (Opaque.example_claims
                                  (Some (PyList [PyStr "User.Read";
                                                 PyStr "Mail.Read"])))
                               "azp"))
                     (PyStr "unknown")) = false
       ∨ ∃ v, Opaque.example_claims
                (Some (PyList [PyStr "User.Read"; PyStr "Mail.Read"]))
              !! "exp" = Some v ∧ ∀ n, v ≠ PyInt n).
Proof.
  apply (verify_token_raises_only Opaque.example_payload
           Opaque.example_int_of_str Opaque.example_int_str_ok
           (Opaque.token_verifier "T") (1000 # 1) "scope-list"
           (Opaque.example_claims
              (Some (PyList [PyStr "User.Read"; PyStr "Mail.Read"])))
           AttributeError).
  - reflexivity.
  - vm_compute. reflexivity.
Defined.

Section Rejection.

Variable jws_payload : string → option dict.
Variable int_of_str : string → option Z.
Variable int_str_ok : string → bool.

(** A token on which [int(exp)] raises nothing but [ValueError] and which
    [pyjwt.decode] does not let through is rejected. *)
Lemma verify_token_not_decoded self now tok payload :
  jws_payload tok = Some payload →
  (∀ v e, payload !! "exp" = Some v →
          PyJWT.py_int int_of_str v = Raises e → e = ValueError) →
  (∀ cl, PyJWT.decode jws_payload int_of_str tok (Opaque.audience self)
           (Opaque.issuers self) Opaque.decode_options now
         ≠ Returns cl) →
  Opaque.verify_token jws_payload int_of_str int_str_ok self now tok
    = Returns None.
Proof.
  intros Hjws Hexp Hno.
  destruct (PyJWT.decode jws_payload int_of_str tok
              (Opaque.audience self) (Opaque.issuers self)
              Opaque.decode_options now) as [cl|e] eqn:Hdec;
    [by destruct (Hno cl)|].
  eapply verify_token_decode_error; [done|].
  apply decode_raises in Hdec
    as [?|(Hnv & payload' & v & Hp & Hv & _ & Hint)]; [done|].
  rewrite Hjws in Hp. simplify_eq.
  by destruct (Hnv (Hexp v e Hv Hint)).
Qed.

End Rejection.

(** X3.  A token whose [iss] claim is missing, not a string, or not one of
    the configured issuers is rejected by the claims-only verifier,
    whatever its other claims are, as long as [int(exp)] raises nothing
    but [ValueError]: [exp] is not a list, an object or an infinity. *)
Theorem verify_token_wrong_issuer jws_payload int_of_str int_str_ok self now
    tok payload :
  jws_payload tok = Some payload →
  (∀ v e, payload !! "exp" = Some v →
          PyJWT.py_int int_of_str v = Raises e → e = ValueError) →
  (∀ iss, payload !! "iss" = Some (PyStr iss) →
          iss ∉ Opaque.issuers self) →
  Opaque.verify_token jws_payload int_of_str int_str_ok self now tok
    = Returns None.
Proof.
  intros Hjws Hexp Hiss.
  eapply verify_token_not_decoded; [done..|].
  intros cl Hdec. apply decode_accepts in Hdec as (Hp & _ & (i & Hi & Hin) & _).
  rewrite Hjws in Hp. simplify_eq. by eapply Hiss.
Qed.

Lemma verify_token_wrong_issuer_witness :
  Opaque.verify_token Opaque.example_payload Opaque.example_int_of_str
    Opaque.example_int_str_ok
    Examples.other_tenant (1000 # 1) "both-scopes" = Returns None.
Proof.
  apply (verify_token_wrong_issuer Opaque.example_payload
           Opaque.example_int_of_str Opaque.example_int_str_ok
           Examples.other_tenant (1000 # 1) "both-scopes"
           (Opaque.example_claims (Some (PyStr "User.Read Mail.Read")))).
  - reflexivity.
  - intros v e Hv. vm_compute in Hv. injection Hv as <-. discriminate.
  - intros iss Hiss. vm_compute in Hiss. injection Hiss as <-.
    intros Hin. apply (bool_decide_pack _) in Hin. vm_compute in Hin.
    exact Hin.
Defined.

(** X4.  A token whose [aud] claim is neither the configured audience nor
    a list containing it is rejected by the claims-only verifier, whatever
    its other claims are, as long as [int(exp)] raises nothing but
    [ValueError]: [exp] is not a list, an object or an infinity. *)
Theorem verify_token_wrong_audience jws_payload int_of_str int_str_ok self
    now tok payload :
  jws_payload tok = Some payload →
  (∀ v e, payload !! "exp" = Some v →
          PyJWT.py_int int_of_str v = Raises e → e = ValueError) →
  dict_get payload "aud" ≠ PyStr (Opaque.audience self) →
  (∀ items, dict_get payload "aud" = PyList items →
            PyStr (Opaque.audience self) ∉ items) →
  Opaque.verify_token jws_payload int_of_str int_str_ok self now tok
    = Returns None.
Proof.
  intros Hjws Hexp Hstr Hlist.
  eapply verify_token_not_decoded; [done..|].
  intros cl Hdec. apply decode_accepts in Hdec as (Hp & _ & _ & Haud).
  rewrite Hjws in Hp. simplify_eq.
  destruct Haud as [?|(items & Hitems & Hin & _)]; [done|].
  by eapply Hlist.
Qed.

Lemma verify_token_wrong_audience_witness :
  Opaque.verify_token Opaque.example_payload Opaque.example_int_of_str
    Opaque.example_int_str_ok
    Examples.other_audience (1000 # 1) "both-scopes" = Returns None.
Proof.
  apply (verify_token_wrong_audience Opaque.example_payload
           Opaque.example_int_of_str Opaque.example_int_str_ok
           Examples.other_audience (1000 # 1) "both-scopes"
           (Opaque.example_claims (Some (PyStr "User.Read Mail.Read")))).
  - reflexivity.
  - intros v e Hv. vm_compute in Hv. injection Hv as <-. discriminate.
  - vm_compute. discriminate.
  - intros items Hitems. vm_compute in Hitems. discriminate Hitems.
Defined.

(** X5.  The client identifier of an accepted token is the [appid] claim
    when that is truthy, otherwise the [azp] claim when that is truthy,
    otherwise "unknown": an empty [appid] gives way to [azp]. *)
Theorem verify_token_client_id jws_payload int_of_str int_str_ok self now
    tok p :
  Opaque.verify_token jws_payload int_of_str int_str_ok self now tok
    = Returns (Some p) →
  (truthy (dict_get (claims p) "appid") = true →
   client_id p = dict_get (claims p) "appid")
  ∧ (truthy (dict_get (claims p) "appid") = false →
     truthy (dict_get (claims p) "azp") = true →
     client_id p = dict_get (claims p) "azp")
  ∧ (truthy (dict_get (claims p) "appid") = false →
     truthy (dict_get (claims p) "azp") = false →
     client_id p = PyStr "unknown").
Proof.
  intros Hv.
  apply verify_token_some in Hv
    as (cl & words & exp & _ & _ & _ & _ & _ & _ & _ & ->).
  simpl. unfold py_or.
  repeat split.
  - intros Ha. by rewrite Ha, Ha.
  - intros Ha Hz. by rewrite Ha, Hz.
  - intros Ha Hz. by rewrite Ha, Hz.
Qed.

Lemma verify_token_client_id_witness :
  (∃ p, Opaque.verify_token Examples.client_payload
          Opaque.example_int_of_str
    Opaque.example_int_str_ok (Opaque.token_verifier "T") (1000 # 1)
          "appid-and-azp" = Returns (Some p)
      ∧ client_id p = PyStr "app-1")
  ∧ (∃ p, Opaque.verify_token Examples.client_payload
            Opaque.example_int_of_str
    Opaque.example_int_str_ok (Opaque.token_verifier "T")
            (1000 # 1) "azp-only" = Returns (Some p)
        ∧ client_id p = PyStr "azp-1").
Proof.
  split.
  - eexists. split; [vm_compute; reflexivity|].
    refine (proj1 (verify_token_client_id Examples.client_payload
                     Opaque.example_int_of_str Opaque.example_int_str_ok
                     (Opaque.token_verifier "T")
                     (1000 # 1) "appid-and-azp" _ _) _).
    + vm_compute. reflexivity.
    + reflexivity.
  - eexists. split; [vm_compute; reflexivity|].
    refine (proj1 (proj2 (verify_token_client_id Examples.client_payload
                            Opaque.example_int_of_str Opaque.example_int_str_ok
                            (Opaque.token_verifier "T")
                            (1000 # 1) "azp-only" _ _)) _ _).
    + vm_compute. reflexivity.
    + reflexivity.
    + reflexivity.
Defined.

(** *** The words of a string *)

Lemma list_ascii_of_string_app (s t : string) :
  String.list_ascii_of_string (s +:+ t)
  = String.list_ascii_of_string s ++ String.list_ascii_of_string t.
Proof. induction s as [|c s IH]; simpl; [done|]. by rewrite IH. Qed.

(** Every word is part of the input: the word read so far, or characters
    that are not whitespace. *)
Lemma words_from_no_space (w s x : string) :
  Forall (λ c, is_space c = false) (String.list_ascii_of_string w) →
  x ∈ words_from w s →
  x ≠ "" ∧ Forall (λ c, is_space c = false) (String.list_ascii_of_string x).
Proof.
  revert w. induction s as [|c s IH]; simpl; intros w Hw Hx.
  - destruct w; [by apply elem_of_nil in Hx|].
    apply list_elem_of_singleton in Hx as ->. done.
  - destruct (is_space c) eqn:Hc.
    + apply elem_of_app in Hx as [Hx|Hx].
      * destruct w; [by apply elem_of_nil in Hx|].
        apply list_elem_of_singleton in Hx as ->. done.
      * apply (IH ""); [constructor | done].
    + apply (IH (w +:+ String c "")); [|done].
      rewrite list_ascii_of_string_app. apply Forall_app.
      split; [done|]. simpl. by repeat constructor.
Qed.

Lemma str_split_no_space (s x : string) :
  x ∈ str_split s →
  x ≠ "" ∧ Forall (λ c, is_space c = false) (String.list_ascii_of_string x).
Proof. apply words_from_no_space. constructor. Qed.

Lemma append_assoc (s t u : string) : (s +:+ t) +:+ u = s +:+ (t +:+ u).
Proof.
  induction s as [|c s IH]; [done|].
  change (String c ((s +:+ t) +:+ u) = String c (s +:+ (t +:+ u))).
  by f_equal.
Qed.

(** Every word is a part of the text read: of the word read so far
    followed by the rest of the input. *)
Lemma words_from_part (w s x : string) :
  x ∈ words_from w s → ∃ a b, w +:+ s = a +:+ x +:+ b.
Proof.
  revert w. induction s as [|c s IH]; simpl; intros w Hx.
  - destruct w as [|c' w]; [by apply elem_of_nil in Hx|].
    apply list_elem_of_singleton in Hx as ->. by exists "", "".
  - destruct (is_space c) eqn:Hc.
    + apply elem_of_app in Hx as [Hx|Hx].
      * destruct w as [|c' w]; [by apply elem_of_nil in Hx|].
        apply list_elem_of_singleton in Hx as ->.
        by exists "", (String c s).
      * apply IH in Hx as (a & b & Hab).
        exists (w +:+ String c a), b. rewrite append_assoc.
        change (w +:+ String c ("" +:+ s)
                = w +:+ String c (a +:+ x +:+ b)).
        by rewrite Hab.
    + apply IH in Hx as (a & b & Hab).
      exists a, b. rewrite <- Hab, append_assoc. done.
Qed.

Lemma str_split_part (s x : string) :
  x ∈ str_split s → ∃ a b, s = a +:+ x +:+ b.
Proof. intros Hx. by apply words_from_part in Hx. Qed.

(** X6.  The scopes of an accepted token are the words of its [scp] claim,
    a string (the empty string when the claim is absent), each word once:
    a string is among the scopes exactly when [scp.split()] yields it, the
    list has no duplicates, and every scope is a non-empty part of [scp]
    without whitespace. *)
Theorem verify_token_scopes_wellformed jws_payload int_of_str int_str_ok
    self now tok p :
  Opaque.verify_token jws_payload int_of_str int_str_ok self now tok
    = Returns (Some p) →
  ∃ scp,
    dict_get_default (claims p) "scp" (PyStr "") = PyStr scp
    ∧ NoDup (scopes p)
    ∧ (∀ s, s ∈ scopes p ↔ s ∈ str_split scp)
    ∧ ∀ s, s ∈ scopes p →
        s ≠ ""
        ∧ Forall (λ c, is_space c = false) (String.list_ascii_of_string s)
        ∧ ∃ a b, scp = a +:+ s +:+ b.
Proof.
  intros Hv.
  apply verify_token_some in Hv
    as (cl & words & exp & _ & _ & Hsplit & _ & _ & _ & _ & ->).
  simpl.
  destruct (dict_get_default cl "scp" (PyStr "")) as [| | |scp| | |];
    try discriminate.
  simpl in Hsplit. simplify_eq. exists scp.
  assert (∀ s, s ∈ elements (list_to_set (str_split scp) : gset string)
               ↔ s ∈ str_split scp) as Hwords.
  { intros s. by rewrite elem_of_elements, elem_of_list_to_set. }
  split; [done|]. split; [apply NoDup_elements|]. split; [done|].
  intros s Hs. apply Hwords in Hs.
  destruct (str_split_no_space _ _ Hs) as [Hne Hsp].
  split; [done|]. split; [done|]. by apply str_split_part.
Qed.

Lemma verify_token_scopes_wellformed_witness :
  ∃ scp,
    dict_get_default (claims Examples.accepted) "scp" (PyStr "") = PyStr scp
    ∧ NoDup (scopes Examples.accepted)
    ∧ (∀ s, s ∈ scopes Examples.accepted ↔ s ∈ str_split scp)
    ∧ ∀ s, s ∈ scopes Examples.accepted →
        s ≠ ""
        ∧ Forall (λ c, is_space c = false) (String.list_ascii_of_string s)
        ∧ ∃ a b, scp = a +:+ s +:+ b.
Proof.
  apply (verify_token_scopes_wellformed Opaque.example_payload
           Opaque.example_int_of_str Opaque.example_int_str_ok
           (Opaque.token_verifier "T") (1000 # 1) "both-scopes"
           Examples.accepted).
  vm_compute. reflexivity.
Defined.

(** ** More on the scope prefix *)

Lemma append_inj_l (p a b : string) : p +:+ a = p +:+ b → a = b.
Proof.
  induction p as [|c p IH]; simpl; [done|].
  intros H. injection H as H. by apply IH.
Qed.

(** A scope becomes [prefix/name] exactly when it is [name] without a
    separator or is already [prefix/name]. *)
Lemma qualify_eq_prefixed (prefix name s : string) :
  has_slash name = false →
  Obo.qualify prefix s = prefix +:+ "/" +:+ name
  ↔ s = name ∨ s = prefix +:+ "/" +:+ name.
Proof.
  intros Hname. unfold Obo.qualify. split.
  - destruct (has_slash s) eqn:Hs; [by right|].
    intros H. left. apply append_inj_l in H. by injection H.
  - intros [->| ->].
    + by rewrite Hname.
    + by rewrite has_slash_prefixed.
Qed.

(** X7.  Under the verifier the server is started with, the extracted
    scopes are as many as the token carries, and the required scope
    [api://<client>/access_as_user] is among them exactly when the token
    carries [access_as_user] in its short form or in its qualified form. *)
Theorem access_as_user_in_both_forms azure_client_id issuer cl raw :
  JWTVerifier._extract_scopes cl = Returns raw →
  ∃ scopes',
    Obo._extract_scopes (Obo.token_verifier azure_client_id issuer) cl
      = Returns scopes'
    ∧ length scopes' = length raw
    ∧ ((list_to_set
          (JWTVerifier.required_scopes
             (Obo.base (Obo.token_verifier azure_client_id issuer)))
          : gset string) ⊆ list_to_set scopes'
       ↔ "access_as_user" ∈ raw
         ∨ Obo.identifier_uri azure_client_id +:+ "/access_as_user" ∈ raw).
Proof.
  intros Hraw. unfold Obo._extract_scopes. rewrite Hraw. simpl.
  eexists. split; [reflexivity|]. split; [apply length_map|].
  rewrite union_empty_r_L, singleton_subseteq_l, elem_of_list_to_set.
  rewrite (list_elem_of_fmap
             (Obo.qualify (Obo.identifier_uri azure_client_id)) raw).
  split.
  - intros (s & Hs & Hin). symmetry in Hs.
    apply qualify_eq_prefixed in Hs as [->| ->]; auto.
  - intros [Hin|Hin]; eexists; (split; [|exact Hin]); symmetry;
      apply qualify_eq_prefixed; auto.
Qed.

Lemma access_as_user_in_both_forms_witness :
  ∃ scopes',
    Obo._extract_scopes
      (Obo.token_verifier "X" "https://login.example/T/v2.0")
      (<["scp" := PyStr "profile access_as_user"]> ∅)
      = Returns scopes'
    ∧ length scopes' = 2%nat
    ∧ ((list_to_set
          (JWTVerifier.required_scopes
             (Obo.base
                (Obo.token_verifier "X" "https://login.example/T/v2.0")))
          : gset string) ⊆ list_to_set scopes'
       ↔ "access_as_user" ∈ ["profile"; "access_as_user"]
         ∨ Obo.identifier_uri "X" +:+ "/access_as_user"
           ∈ ["profile"; "access_as_user"]).
Proof.
  apply (access_as_user_in_both_forms "X" "https://login.example/T/v2.0"
           (<["scp" := PyStr "profile access_as_user"]> ∅)
           ["profile"; "access_as_user"]).
  vm_compute. reflexivity.
Defined.

(** X8.  A verified token as Azure issues it, with the issuer and
    audience of the configuration, an [exp] not before the current time
    and the scope [access_as_user] in short form, is accepted by the
    verifier the server is started with, and its access token carries the
    qualified scope; the same verifier without the scope prefix rejects
    the token. *)
Theorem short_scope_accepted verified_claims repr_container
    azure_client_id issuer now tok cl exp :
  verified_claims tok = Some cl →
  cl !! "exp" = Some (PyInt exp) →
  (now <= inject_Z exp)%Q →
  cl !! "iss" = Some (PyStr issuer) →
  cl !! "aud" = Some (PyStr azure_client_id) →
  cl !! "scope" = None →
  cl !! "scp" = Some (PyStr "access_as_user") →
  (∃ p, Obo.load_access_token verified_claims repr_container
          (Obo.token_verifier azure_client_id issuer) now tok
        = Returns (Some p)
      ∧ scopes p
        = [Obo.identifier_uri azure_client_id +:+ "/access_as_user"])
  ∧ Obo.load_access_token verified_claims repr_container
      {| Obo.base := Obo.base (Obo.token_verifier azure_client_id issuer);
         Obo._scope_prefix := "" |} now tok
    = Returns None.
Proof.
  intros Hver Hexp Hle Hiss Haud Hscope Hscp.
  apply Qle_bool_iff in Hle.
  assert (∀ self,
            Obo._extract_scopes self cl
            = Returns (if truthy (PyStr (Obo._scope_prefix self))
                       then [Obo._scope_prefix self +:+ "/access_as_user"]
                       else ["access_as_user"])) as Hext.
  { intros self. unfold Obo._extract_scopes, JWTVerifier._extract_scopes.
    rewrite Hscope, Hscp. simpl. by destruct (negb _). }
  assert (∀ self,
            JWTVerifier.issuer self = issuer →
            JWTVerifier.audience self = azure_client_id →
            ∀ extract l,
              extract cl = Returns l →
              JWTVerifier.check_claims repr_container extract self now tok cl
              = (if match JWTVerifier.required_scopes self with
                    | [] => false
                    | _ => true
                    end
                    && negb (bool_decide
                               ((list_to_set
                                   (JWTVerifier.required_scopes self)
                                   : gset string) ⊆ list_to_set l))
                 then Returns None
                 else
                   expires_at ← (if truthy (PyInt exp)
                                 then Returns (PyInt exp)
                                 else Returns PyNone);
                   Returns (Some
                     {| token := tok;
                        client_id :=
                          PyStr (py_str repr_container
                                   (py_or (py_or (dict_get cl "client_id")
                                                 (dict_get cl "sub"))
                                          (PyStr "unknown")));
                        scopes := l;
                        expires_at := expires_at;
                        claims := cl |}))) as Hcheck.
  { intros self Hi Ha extract l Hl. unfold JWTVerifier.check_claims.
    unfold dict_get. rewrite Hexp, Hiss, Haud, Hi, Ha, Hl. simpl.
    rewrite Hle, !String.eqb_refl. simpl.
    rewrite !andb_false_r. by destruct (negb (exp =? 0)%Z). }
  split.
  - unfold Obo.load_access_token, JWTVerifier.load_access_token.
    rewrite Hver.
    rewrite (Hcheck (Obo.base (Obo.token_verifier azure_client_id issuer))
               eq_refl eq_refl _ _
               (Hext (Obo.token_verifier azure_client_id issuer))).
    simpl. rewrite bool_decide_eq_true_2 by set_solver. simpl.
    destruct (negb (exp =? 0)%Z); simpl; eauto.
  - unfold Obo.load_access_token, JWTVerifier.load_access_token.
    rewrite Hver. cbn [Obo.base].
    rewrite (Hcheck (Obo.base (Obo.token_verifier azure_client_id issuer))
               eq_refl eq_refl _ _
               (Hext {| Obo.base :=
                          Obo.base (Obo.token_verifier azure_client_id issuer);
                        Obo._scope_prefix := "" |})).
    simpl. rewrite bool_decide_eq_false_2; [done|].
    rewrite !union_empty_r_L, singleton_subseteq_l, elem_of_singleton.
    intros H. discriminate H.
Qed.

Lemma short_scope_accepted_witness :
  (∃ p, Obo.load_access_token Obo.example_verified Obo.example_repr
          (Obo.token_verifier "X" "https://login.example/T/v2.0")
          (1000 # 1) "short-scope" = Returns (Some p)
      ∧ scopes p = [Obo.identifier_uri "X" +:+ "/access_as_user"])
  ∧ Obo.load_access_token Obo.example_verified Obo.example_repr
      {| Obo.base :=
           Obo.base (Obo.token_verifier "X" "https://login.example/T/v2.0");
         Obo._scope_prefix := "" |} (1000 # 1) "short-scope"
    = Returns None.
Proof.
  apply (short_scope_accepted Obo.example_verified Obo.example_repr "X"
           "https://login.example/T/v2.0" (1000 # 1) "short-scope"
           (<["exp" := PyInt 2000]>
              (<["aud" := PyStr "X"]>
                 (<["iss" := PyStr "https://login.example/T/v2.0"]>
                    (<["scp" := PyStr "access_as_user"]> ∅))))
           2000).
  - reflexivity.
  - vm_compute. reflexivity.
  - vm_compute. discriminate.
  - vm_compute. reflexivity.
  - vm_compute. reflexivity.
  - vm_compute. reflexivity.
  - vm_compute. reflexivity.
Defined.

(** ** More on the shared Graph client *)

Lemma step_consistent (st : Obo.state) (c : Obo.call) :
  OboServer.consistent st → OboServer.consistent (Obo.step st c).
Proof.
  unfold OboServer.consistent. intros [Hseq Hh].
  destruct c as [|loop]; simpl.
  - unfold Obo._get_graph_client.
    destruct (Obo._graph_client st) as [c|] eqn:Hc; simpl.
    + rewrite Hc. done.
    + split.
      * rewrite length_app. simpl. rewrite Nat.add_1_r, seq_S. simpl.
        by rewrite <- Hseq.
      * by rewrite <- Hh.
  - unfold Obo._close_graph_client.
    destruct (Obo._graph_client st) as [c|] eqn:Hc; simpl.
    + split; [done|]. rewrite map_app. simpl.
      rewrite Hh. by destruct loop.
    + rewrite Hc. done.
Qed.

Lemma run_consistent_from (calls : list Obo.call) (st : Obo.state) :
  OboServer.consistent st → OboServer.consistent (Obo.run calls st).
Proof.
  revert st. induction calls as [|c calls IH]; intros st Hst; [done|].
  simpl. apply IH. by apply step_consistent.
Qed.

Lemma initial_consistent : OboServer.consistent Obo.initial.
Proof. by split. Qed.

Lemma consistent_released_NoDup (st : Obo.state) :
  OboServer.consistent st →
  NoDup (map Obo.released_client (Obo.releases st))
  ∧ ∀ c, Obo._graph_client st = Some c →
         c ∉ map Obo.released_client (Obo.releases st).
Proof.
  intros [Hseq Hh].
  assert (NoDup (Obo.constructed st)) as Hnd
    by (rewrite Hseq; apply NoDup_seq).
  destruct (Obo._graph_client st) as [c|].
  - rewrite Hh in Hnd. apply NoDup_app in Hnd as (Hnd & Hdisj & _).
    split; [done|]. intros c' [= <-] Hin.
    apply (Hdisj c Hin). by apply list_elem_of_singleton.
  - rewrite Hh in Hnd. split; [done|]. discriminate.
Qed.

(** X9.  Whatever the order of the calls of [_get_graph_client] and
    [_close_graph_client] since the start of the process: the clients
    constructed are numbered in order; [aclose()] has been started once,
    and in that order, on each of them except the one the handle holds;
    so no client is closed twice, the client in the handle is not closed,
    and at most one client is open at a time. *)
Theorem graph_client_consistent (calls : list Obo.call) :
  OboServer.consistent (Obo.run calls Obo.initial)
  ∧ NoDup (map Obo.released_client
             (Obo.releases (Obo.run calls Obo.initial)))
  ∧ (∀ c, Obo._graph_client (Obo.run calls Obo.initial) = Some c →
          c ∉ map Obo.released_client
                (Obo.releases (Obo.run calls Obo.initial)))
  ∧ length (Obo.constructed (Obo.run calls Obo.initial))
    = (length (Obo.releases (Obo.run calls Obo.initial))
       + (match Obo._graph_client (Obo.run calls Obo.initial) with
          | Some _ => 1
          | None => 0
          end))%nat.
Proof.
  pose proof (run_consistent_from calls _ initial_consistent) as Hc.
  split; [done|].
  destruct (consistent_released_NoDup _ Hc) as [Hnd Hopen].
  split; [done|]. split; [done|].
  destruct Hc as [_ Hh].
  destruct (Obo._graph_client _); rewrite Hh.
  - by rewrite length_app, length_map.
  - rewrite length_map. lia.
Qed.

(** X10.  After any calls, [_get_graph_client] hands out a client that
    was constructed and on which no [aclose()] was started, and leaves it
    in the handle: after a close the next use gets a new client, never
    the closed one. *)
Theorem _get_graph_client_open (calls : list Obo.call) :
  let st := Obo.run calls Obo.initial in
  let c := fst (Obo._get_graph_client st) in
  let st' := snd (Obo._get_graph_client st) in
  Obo._graph_client st' = Some c
  ∧ c ∈ Obo.constructed st'
  ∧ (c ∉ map Obo.released_client (Obo.releases st'))
  ∧ Obo.releases st' = Obo.releases st.
Proof.
  intros st c st'.
  pose proof (run_consistent_from (calls ++ [Obo.Get]) _ initial_consistent)
    as Hc.
  rewrite run_app in Hc. change (OboServer.consistent st') in Hc.
  assert (Obo._graph_client st' = Some c ∧ Obo.releases st' = Obo.releases st)
    as [Hh Hr].
  { subst c st'. unfold Obo._get_graph_client.
    by destruct (Obo._graph_client st) eqn:H. }
  split; [done|].
  destruct (consistent_released_NoDup _ Hc) as [_ Hopen].
  split; [|split; [by apply Hopen | done]].
  destruct Hc as [_ Hcons]. rewrite Hh in Hcons. rewrite Hcons.
  apply elem_of_app. right. by apply list_elem_of_singleton.
Qed.

(** ** The diagnostic decoding *)

Lemma length_append (s t : string) :
  String.length (s +:+ t) = (String.length s + String.length t)%nat.
Proof. induction s as [|c s IH]; simpl; [done|]. by rewrite IH. Qed.

Lemma length_str_repeat_char (c : Ascii.ascii) (n : nat) :
  String.length (str_repeat (String c "") n) = n.
Proof. induction n as [|n IH]; simpl; [done|]. by f_equal. Qed.

(** A split gives at least one piece, and a second one exactly when the
    separator occurs. *)
Lemma split_on_from_first (sep : Ascii.ascii) (w s : string) :
  ∃ x, split_on_from sep w s !! 0%nat = Some x.
Proof.
  revert w. induction s as [|c s IH]; intros w; simpl; [eauto|].
  destruct (Ascii.eqb c sep); [eauto | apply IH].
Qed.

Lemma split_on_from_second (sep : Ascii.ascii) (w s : string) :
  split_on_from sep w s !! 1%nat = None
  ↔ Forall (λ c, c ≠ sep) (String.list_ascii_of_string s).
Proof.
  revert w. induction s as [|c s IH]; intros w; simpl.
  - split; [constructor | done].
  - destruct (Ascii.eqb_spec c sep) as [->|Hne].
    + simpl. destruct (split_on_from_first sep "" s) as [x ->].
      split; [discriminate|]. intros H. by inversion H.
    + rewrite IH. split; [by constructor|]. intros H. by inversion H.
Qed.

(** X11.  The diagnostic decoding finds a payload segment exactly in the
    tokens that contain a dot.  The segment is padded with one to four
    [=] signs to a length that is a multiple of four; a segment whose
    length is a multiple of four already gets four of them. *)
Theorem payload_b64_padded (tok : string) :
  (Diagnostic.payload_b64 tok = None
   ↔ Forall (λ c, c ≠ "."%char) (String.list_ascii_of_string tok))
  ∧ ∀ padded, Diagnostic.payload_b64 tok = Some padded →
      ∃ part n,
        str_split_on "." tok !! 1%nat = Some part
        ∧ padded = part +:+ str_repeat "=" n
        ∧ (1 ≤ n ≤ 4)%nat
        ∧ (String.length part mod 4 = 0 → n = 4)%nat
        ∧ (String.length padded mod 4 = 0)%nat.
Proof.
  unfold Diagnostic.payload_b64. split.
  - rewrite <- (split_on_from_second "." "" tok).
    fold (str_split_on "." tok).
    by destruct (str_split_on "." tok !! 1%nat).
  - intros padded.
    destruct (str_split_on "." tok !! 1%nat) as [part|]; [|discriminate].
    intros Heq.
    assert (padded
            = part +:+ str_repeat "=" (4 - String.length part mod 4)) as ->
      by congruence.
    clear Heq.
    exists part, (4 - String.length part mod 4)%nat.
    assert (String.length part mod 4 < 4)%nat as Hlt
      by (apply Nat.mod_upper_bound; lia).
    pose proof (Nat.div_mod_eq (String.length part) 4) as Hdm.
    split; [done|]. split; [done|]. split; [lia|]. split; [lia|].
    rewrite length_append, (length_str_repeat_char "=").
    replace (String.length part + (4 - String.length part mod 4))%nat
      with ((String.length part `div` 4 + 1) * 4)%nat by lia.
    apply Nat.Div0.mod_mul.
Qed.

Lemma payload_b64_padded_witness :
  ∃ part n,
    str_split_on "." "aaaa.bbbb.cc" !! 1%nat = Some part
    ∧ "bbbb====" = part +:+ str_repeat "=" n
    ∧ (1 ≤ n ≤ 4)%nat
    ∧ (String.length part mod 4 = 0 → n = 4)%nat
    ∧ (String.length "bbbb====" mod 4 = 0)%nat.
Proof.
  apply (proj2 (payload_b64_padded "aaaa.bbbb.cc") "bbbb====").
  reflexivity.
Defined.

(** ** The Graph calls *)

Lemma _obo_exchange_cases acquire_token_on_behalf_of repr_container
    assertion :
  match acquire_token_on_behalf_of assertion
          ["https://graph.microsoft.com/.default"] !! "access_token" with
  | Some access_token =>
      Obo._obo_exchange acquire_token_on_behalf_of repr_container assertion
      = Returns access_token
  | None =>
      ∃ msg,
        Obo._obo_exchange acquire_token_on_behalf_of repr_container assertion
        = Raises (RuntimeError msg)
  end.
Proof.
  unfold Obo._obo_exchange.
  set (result := acquire_token_on_behalf_of assertion _).
  destruct (result !! "access_token") as [v|] eqn:Hv.
  - rewrite (proj2 (dict_contains_true _ _)) by eauto.
    simpl. unfold dict_getitem. by rewrite Hv.
  - rewrite (proj2 (dict_contains_false _ _)) by done.
    simpl. eauto.
Qed.

(** X12.  In the on-behalf-of server a Graph call sends nothing and
    leaves the shared client untouched when there is no access token or
    the exchange yields none; it then fails with [RuntimeError].
    Otherwise it sends exactly one request, to [GRAPH_BASE] followed by
    the path, whose only credential is the exchanged token, through the
    client in the handle, which is open; the result is read from the
    reply to that request. *)
Theorem obo_graph_get_effect get_access_token acquire_token_on_behalf_of
    repr_container respond path w r w' :
  OboServer._graph_get get_access_token acquire_token_on_behalf_of
    repr_container respond path w = (r, w') →
  OboServer.consistent (OboServer.graph w) →
  (w' = w
   ∧ ∃ msg, r = Tools.Failed (Tools.Raised (RuntimeError msg))
       ∧ (get_access_token = None
          ∨ ∃ access, get_access_token = Some access
              ∧ acquire_token_on_behalf_of (token access)
                  ["https://graph.microsoft.com/.default"]
                !! "access_token" = None))
  ∨ ∃ access graph_token client,
      get_access_token = Some access
      ∧ acquire_token_on_behalf_of (token access)
          ["https://graph.microsoft.com/.default"] !! "access_token"
        = Some graph_token
      ∧ OboServer.requests w'
        = OboServer.requests w
          ++ [(client,
               {| Tools.url := Tools.GRAPH_BASE +:+ path;
                  Tools.headers :=
                    [("Authorization",
                      "Bearer " +:+ py_str repr_container graph_token)] |})]
      ∧ Obo._graph_client (OboServer.graph w') = Some client
      ∧ (client ∉ map Obo.released_client
                    (Obo.releases (OboServer.graph w')))
      ∧ OboServer.consistent (OboServer.graph w')
      ∧ r = Tools.read_reply
              (respond
                 {| Tools.url := Tools.GRAPH_BASE +:+ path;
                    Tools.headers :=
                      [("Authorization",
                        "Bearer " +:+ py_str repr_container graph_token)] |}).
Proof.
  unfold OboServer._graph_get. intros H Hc.
  destruct get_access_token as [access|].
  2:{ injection H as <- <-. left. split; [done|]. eexists. eauto. }
  pose proof (_obo_exchange_cases acquire_token_on_behalf_of repr_container
                (token access)) as Hex.
  destruct (acquire_token_on_behalf_of (token access) _ !! "access_token")
    as [graph_token|] eqn:Htok.
  - rewrite Hex in H.
    destruct (Obo._get_graph_client (OboServer.graph w)) as [client g] eqn:Hg.
    injection H as <- <-. right.
    exists access, graph_token, client.
    assert (OboServer.consistent g) as Hg'.
    { replace g with (Obo.step (OboServer.graph w) Obo.Get)
        by (simpl; by rewrite Hg).
      by apply step_consistent. }
    assert (Obo._graph_client g = Some client) as Hh.
    { unfold Obo._get_graph_client in Hg.
      destruct (Obo._graph_client (OboServer.graph w)) eqn:Hw;
        injection Hg as <- <-; done. }
    split; [done|]. split; [done|]. split; [done|]. split; [done|].
    split; [by apply (consistent_released_NoDup g Hg')|].
    split; done.
  - destruct Hex as [msg Hex]. rewrite Hex in H.
    injection H as <- <-. left. split; [done|].
    exists msg. split; [done|]. right. eauto.
Qed.

Lemma obo_graph_get_effect_witness :
  (Examples.fresh_world = Examples.fresh_world
   ∧ ∃ msg,
       Tools.Failed (A:=pyval)
         (Tools.Raised
            (RuntimeError
               "OBO token exchange failed: invalid_grant AADSTS50013: assertion is not valid"))
       = Tools.Failed (Tools.Raised (RuntimeError msg))
       ∧ (Some (Examples.inbound "rejected") = None
          ∨ ∃ access, Some (Examples.inbound "rejected") = Some access
              ∧ Obo.example_response (token access)
                  ["https://graph.microsoft.com/.default"]
                !! "access_token" = None))
  ∨ ∃ access graph_token client,
      Some (Examples.inbound "rejected") = Some access
      ∧ Obo.example_response (token access)
          ["https://graph.microsoft.com/.default"] !! "access_token"
        = Some graph_token
      ∧ OboServer.requests Examples.fresh_world
        = OboServer.requests Examples.fresh_world
          ++ [(client,
               {| Tools.url := Tools.GRAPH_BASE +:+ "/me";
                  Tools.headers :=
                    [("Authorization",
                      "Bearer "
                      +:+ py_str Obo.example_repr graph_token)] |})]
      ∧ Obo._graph_client (OboServer.graph Examples.fresh_world)
        = Some client
      ∧ (client ∉ map Obo.released_client
                    (Obo.releases (OboServer.graph Examples.fresh_world)))
      ∧ OboServer.consistent (OboServer.graph Examples.fresh_world)
      ∧ Tools.Failed (A:=pyval)
          (Tools.Raised
             (RuntimeError
                "OBO token exchange failed: invalid_grant AADSTS50013: assertion is not valid"))
        = Tools.read_reply
            (Examples.graph_api
               {| Tools.url := Tools.GRAPH_BASE +:+ "/me";
                  Tools.headers :=
                    [("Authorization",
                      "Bearer "
                      +:+ py_str Obo.example_repr graph_token)] |}).
Proof.
  apply (obo_graph_get_effect (Some (Examples.inbound "rejected"))
           Obo.example_response Obo.example_repr Examples.graph_api "/me"
           Examples.fresh_world).
  - vm_compute. reflexivity.
  - split; reflexivity.
Defined.

(** X13.  In the on-behalf-of server [hello], called with an access token
    for which the exchange gives a token, greets by the [displayName] of
    the profile that the Graph API returns to the exchanged token under
    [/me]; it raises [KeyError] when the profile has no [displayName],
    and fails with the status when the reply is not 2xx. *)
Theorem obo_hello acquire_token_on_behalf_of repr_container respond access
    graph_token w :
  acquire_token_on_behalf_of (token access)
    ["https://graph.microsoft.com/.default"] !! "access_token"
  = Some (PyStr graph_token) →
  let tool :=
    Tools.hello repr_container OboServer.world
      (OboServer._graph_get (Some access) acquire_token_on_behalf_of
         repr_container respond) in
  let reply :=
    respond {| Tools.url := "https://graph.microsoft.com/v1.0/me";
               Tools.headers := Tools.bearer graph_token |} in
  (∀ entries name,
     reply = Tools.Reply 200 (Some (PyDict entries)) →
     entries_lookup "displayName" entries = Some (PyStr name) →
     fst (tool w) = Tools.Done ("Hello, " +:+ name +:+ "!"))
  ∧ (∀ entries,
       reply = Tools.Reply 200 (Some (PyDict entries)) →
       entries_lookup "displayName" entries = None →
       fst (tool w)
       = Tools.Failed (Tools.Raised (KeyError "displayName")))
  ∧ (∀ status_code body,
       reply = Tools.Reply status_code body →
       (status_code < 200 ∨ 300 ≤ status_code)%Z →
       fst (tool w) = Tools.Failed (Tools.HTTPStatusError status_code)).
Proof.
  intros Htok tool reply.
  assert (fst (tool w)
          = Tools.read_reply reply
              ≫= λ d, Tools.lift (Tools.hello_text repr_container d))
    as ->.
  { subst tool reply. unfold Tools.hello, OboServer._graph_get.
    pose proof (_obo_exchange_cases acquire_token_on_behalf_of
                  repr_container (token access)) as Hex.
    rewrite Htok in Hex. rewrite Hex.
    by destruct (Obo._get_graph_client (OboServer.graph w)). }
  split; [|split].
  - intros entries name -> Hname. simpl.
    unfold Tools.hello_text. simpl. by rewrite Hname.
  - intros entries -> Hname. simpl.
    unfold Tools.hello_text. simpl. by rewrite Hname.
  - intros status_code body -> Hstatus. simpl.
    replace ((200 <=? status_code)%Z && (status_code <? 300)%Z)
      with false; [done|].
    symmetry. apply andb_false_iff. rewrite Z.leb_gt, Z.ltb_ge. lia.
Qed.

Lemma obo_hello_witness :
  fst (Tools.hello Obo.example_repr OboServer.world
         (OboServer._graph_get (Some (Examples.inbound "user-token"))
            Obo.example_response Obo.example_repr Examples.graph_api)
         Examples.fresh_world)
  = Tools.Done "Hello, Ada!".
Proof.
  refine (proj1 (obo_hello Obo.example_response Obo.example_repr
                   Examples.graph_api (Examples.inbound "user-token")
                   "graph-token" Examples.fresh_world _)
            [("displayName", PyStr "Ada")] "Ada" _ _).
  - vm_compute. reflexivity.
  - vm_compute. reflexivity.
  - reflexivity.
Defined.


(** ** The tools *)

Section ToolFacts.

Variable repr_container : pyval → string.

Lemma message_line_returns msg line :
  Tools.message_line repr_container msg = Returns line →
  (∃ rest, line = "- " +:+ rest)
  ∧ ∃ entries subject received,
      msg = PyDict entries
      ∧ entries_lookup "subject" entries = Some subject
      ∧ entries_lookup "receivedDateTime" entries = Some received.
Proof.
  unfold Tools.message_line. intros H.
  apply bind_returns in H as (sender & Hsender & H).
  apply bind_returns in H as (subject & Hsubject & H).
  apply bind_returns in H as (received & Hreceived & H).
  injection H as <-. split; [eauto|].
  destruct msg as [| | | | |entries|]; try discriminate.
  simpl in Hsubject, Hreceived.
  destruct (entries_lookup "subject" entries) as [s|] eqn:Hs;
    [|discriminate].
  destruct (entries_lookup "receivedDateTime" entries) as [d|] eqn:Hd;
    [|discriminate].
  by exists entries, s, d.
Qed.

Lemma message_lines_returns items lines :
  Tools.message_lines repr_container items = Returns lines →
  Forall2 (λ msg line, Tools.message_line repr_container msg = Returns line)
    items lines.
Proof.
  revert lines. induction items as [|msg items IH]; simpl; intros lines H.
  - injection H as <-. constructor.
  - apply bind_returns in H as (line & Hline & H).
    apply bind_returns in H as (rest & Hrest & H).
    injection H as <-. constructor; [done | by apply IH].
Qed.

Lemma message_lines_raises items msg e :
  msg ∈ items →
  Tools.message_line repr_container msg = Raises e →
  ∃ e', Tools.message_lines repr_container items = Raises e'.
Proof.
  intros Hin Hmsg. induction items as [|m items IH];
    [by apply elem_of_nil in Hin|].
  simpl. destruct (Tools.message_line repr_container m) as [line|e1] eqn:Hm;
    [|by eexists].
  apply elem_of_cons in Hin as [->|Hin]; [congruence|].
  destruct (IH Hin) as [e' ->]. simpl. by eexists.
Qed.

Lemma str_join_lines_not_none lines items :
  Forall2 (λ msg line, Tools.message_line repr_container msg = Returns line)
    items lines →
  str_join newline lines ≠ "No junk emails found.".
Proof.
  intros Hall. destruct Hall as [|msg line items' lines' Hline Hrest];
    [discriminate|].
  apply message_line_returns in Hline as [[rest ->] _].
  simpl. destruct lines'; discriminate.
Qed.

End ToolFacts.

(** X14.  [list_junk_emails] answers "No junk emails found." exactly when
    the response is an object whose [value] is missing or falsy (an empty
    list, null, an empty string, zero); a listing never reads like that
    sentence. *)
Theorem junk_emails_none repr_container data :
  Tools.junk_emails_text repr_container data
    = Returns "No junk emails found."
  ↔ ∃ entries, data = PyDict entries
      ∧ truthy (default (PyList []) (entries_lookup "value" entries))
        = false.
Proof.
  unfold Tools.junk_emails_text. split.
  - intros H. apply bind_returns in H as (messages & Hget & H).
    destruct data as [| | | | |entries|]; try discriminate.
    exists entries. split; [done|]. simpl in Hget. injection Hget as <-.
    destruct (truthy _) eqn:Ht; [|done]. exfalso. simpl in H.
    apply bind_returns in H as (items & _ & H).
    apply bind_returns in H as (lines & Hlines & H).
    injection H as H.
    by eapply str_join_lines_not_none, H; apply message_lines_returns.
  - intros (entries & -> & Ht). simpl. by rewrite Ht.
Qed.

(** X15.  When [list_junk_emails] lists messages, [value] is a list, every
    message in it is an object with a [subject] and a [receivedDateTime],
    and the text is one line per message, in the order of the list,
    joined by newlines, each line starting with "- ". *)
Theorem junk_emails_listing repr_container data text :
  Tools.junk_emails_text repr_container data = Returns text →
  text ≠ "No junk emails found." →
  ∃ items lines,
    py_get data "value" (PyList []) = Returns (PyList items)
    ∧ text = str_join newline lines
    ∧ Forall2 (λ msg line,
                 Tools.message_line repr_container msg = Returns line
                 ∧ (∃ rest, line = "- " +:+ rest)
                 ∧ ∃ entries subject received,
                     msg = PyDict entries
                     ∧ entries_lookup "subject" entries = Some subject
                     ∧ entries_lookup "receivedDateTime" entries
                       = Some received)
        items lines.
Proof.
  unfold Tools.junk_emails_text. intros H Hne.
  apply bind_returns in H as (messages & Hget & H). rewrite Hget.
  destruct (negb (truthy messages)) eqn:Ht; [congruence|].
  apply bind_returns in H as (items & Hiter & H).
  apply bind_returns in H as (lines & Hlines & H).
  injection H as <-.
  apply message_lines_returns in Hlines.
  assert (messages = PyList items) as ->.
  { destruct messages as [| | |s|l|entries|]; try discriminate.
    - destruct s as [|c s]; [discriminate|].
      simpl in Hiter. injection Hiter as <-.
      inversion Hlines as [|? ? ? ? Hline]; subst.
      apply message_line_returns in Hline as (_ & ? & ? & ? & ? & _).
      discriminate.
    - by injection Hiter as <-.
    - destruct entries as [|[k v] entries]; [discriminate|].
      simpl in Hiter. injection Hiter as <-.
      inversion Hlines as [|? ? ? ? Hline]; subst.
      apply message_line_returns in Hline as (_ & ? & ? & ? & ? & _).
      discriminate. }
  exists items, lines. split; [done|]. split; [done|].
  eapply Forall2_impl; [exact Hlines|]. simpl.
  intros msg line Hline. split; [done|].
  by apply message_line_returns in Hline.
Qed.

Lemma junk_emails_listing_witness :
  ∃ items lines,
    py_get Examples.junk_mail "value" (PyList []) = Returns (PyList items)
    ∧ "- You won (from: lottery@example.org, 2024-05-01T10:00:00Z)"
      +:+ newline
      +:+ "- Invoice (from: unknown, 2024-05-02T11:30:00Z)"
      = str_join newline lines
    ∧ Forall2 (λ msg line,
                 Tools.message_line Obo.example_repr msg = Returns line
                 ∧ (∃ rest, line = "- " +:+ rest)
                 ∧ ∃ entries subject received,
                     msg = PyDict entries
                     ∧ entries_lookup "subject" entries = Some subject
                     ∧ entries_lookup "receivedDateTime" entries
                       = Some received)
        items lines.
Proof.
  apply (junk_emails_listing Obo.example_repr Examples.junk_mail).
  - vm_compute. reflexivity.
  - discriminate.
Defined.

(** X16.  [list_junk_emails] lists all messages or none: when [value] is
    a list and the line of one message cannot be built (no [subject], no
    [receivedDateTime], or a sender field that is not an object), the
    whole call raises, whatever the other messages are. *)
Theorem junk_emails_all_or_nothing repr_container entries items msg e :
  entries_lookup "value" entries = Some (PyList items) →
  msg ∈ items →
  Tools.message_line repr_container msg = Raises e →
  ∃ e', Tools.junk_emails_text repr_container (PyDict entries) = Raises e'.
Proof.
  intros Hvalue Hin Hmsg.
  destruct (message_lines_raises repr_container _ _ _ Hin Hmsg) as [e' He'].
  unfold Tools.junk_emails_text, py_get. rewrite Hvalue.
  destruct items as [|m items]; [by apply elem_of_nil in Hin|].
  change (∃ e0,
            (lines ← Tools.message_lines repr_container (m :: items);
             Returns (str_join newline lines)) = Raises e0).
  rewrite He'. by eexists.
Qed.

Lemma junk_emails_all_or_nothing_witness :
  ∃ e', Tools.junk_emails_text Obo.example_repr
          Examples.junk_mail_no_subject = Raises e'.
Proof.
  apply (junk_emails_all_or_nothing Obo.example_repr
           [("value",
             PyList
               [PyDict
                  [("subject", PyStr "You won");
                   ("receivedDateTime", PyStr "2024-05-01T10:00:00Z")];
                PyDict
                  [("receivedDateTime", PyStr "2024-05-02T11:30:00Z")]])]
           [PyDict
              [("subject", PyStr "You won");
               ("receivedDateTime", PyStr "2024-05-01T10:00:00Z")];
            PyDict [("receivedDateTime", PyStr "2024-05-02T11:30:00Z")]]
           (PyDict [("receivedDateTime", PyStr "2024-05-02T11:30:00Z")])
           (KeyError "subject")).
  - reflexivity.
  - apply list_elem_of_In. simpl. auto.
  - reflexivity.
Defined.

(** X17.  The sender of a message is "unknown" when [from], its
    [emailAddress] or the [address] of that is missing; a [from] (or
    [emailAddress]) that is present but not an object, such as null,
    makes the line raise [AttributeError] instead. *)
Theorem message_sender_default entries :
  (entries_lookup "from" entries = None →
   Tools.message_sender (PyDict entries) = Returns (PyStr "unknown"))
  ∧ (∀ from,
       entries_lookup "from" entries = Some (PyDict from) →
       (entries_lookup "emailAddress" from = None →
        Tools.message_sender (PyDict entries) = Returns (PyStr "unknown"))
       ∧ (∀ email,
            entries_lookup "emailAddress" from = Some (PyDict email) →
            Tools.message_sender (PyDict entries)
            = Returns (default (PyStr "unknown")
                         (entries_lookup "address" email)))
       ∧ (∀ v, entries_lookup "emailAddress" from = Some v →
               (∀ email, v ≠ PyDict email) →
               Tools.message_sender (PyDict entries)
               = Raises AttributeError))
  ∧ (∀ v, entries_lookup "from" entries = Some v →
          (∀ from, v ≠ PyDict from) →
          Tools.message_sender (PyDict entries) = Raises AttributeError).
Proof.
  unfold Tools.message_sender. simpl. split; [|split].
  - by intros ->.
  - intros from ->. simpl. split; [|split].
    + by intros ->.
    + by intros email ->.
    + intros v -> Hv. simpl.
      destruct v as [| | | | |d|]; try done. by destruct (Hv d).
  - intros v -> Hv. simpl.
    destruct v as [| | | | |d|]; try done. by destruct (Hv d).
Qed.

Lemma message_sender_default_witness :
  Tools.message_sender
    (PyDict [("subject", PyStr "Invoice");
             ("receivedDateTime", PyStr "2024-05-02T11:30:00Z")])
  = Returns (PyStr "unknown")
  ∧ Tools.message_sender
      (PyDict [("subject", PyStr "Invoice"); ("from", PyNone)])
    = Raises AttributeError.
Proof.
  split.
  - apply (proj1 (message_sender_default
                    [("subject", PyStr "Invoice");
                     ("receivedDateTime", PyStr "2024-05-02T11:30:00Z")])).
    reflexivity.
  - apply (proj2 (proj2 (message_sender_default
                           [("subject", PyStr "Invoice");
                            ("from", PyNone)])) PyNone).
    + reflexivity.
    + discriminate.
Defined.


(** X18.  In the server that passes the caller's token on, a Graph call
    without an access token sends nothing and fails with [RuntimeError];
    with one it sends exactly one request, to [GRAPH_BASE] followed by
    the path, with the caller's own token as the bearer credential, and
    there is no second attempt: a reply outside 2xx fails with its
    status, no reply fails with the transport error, a 2xx reply gives
    its body or, when that is not JSON, [ValueError]. *)
Theorem opaque_graph_get_effect get_access_token respond path sent :
  match get_access_token with
  | None =>
      OpaqueServer._graph_get get_access_token respond path sent
      = (Tools.Failed
           (Tools.Raised (RuntimeError "No access token available")), sent)
  | Some access =>
      ∃ r,
        OpaqueServer._graph_get get_access_token respond path sent
        = (r, sent ++ [{| Tools.url := Tools.GRAPH_BASE +:+ path;
                          Tools.headers :=
                            [("Authorization",
                              "Bearer " +:+ token access)] |}])
        ∧ match respond {| Tools.url := Tools.GRAPH_BASE +:+ path;
                           Tools.headers :=
                             [("Authorization",
                               "Bearer " +:+ token access)] |} with
          | Tools.NoReply => r = Tools.Failed Tools.RequestError
          | Tools.Reply status_code body =>
              ((status_code < 200 ∨ 300 ≤ status_code)%Z →
               r = Tools.Failed (Tools.HTTPStatusError status_code))
              ∧ ((200 ≤ status_code < 300)%Z →
                 r = match body with
                     | Some data => Tools.Done data
                     | None => Tools.Failed (Tools.Raised ValueError)
                     end)
          end
  end.
Proof.
  unfold OpaqueServer._graph_get.
  destruct get_access_token as [access|]; [|done].
  eexists. split; [reflexivity|].
  unfold Tools.bearer.
  destruct (respond _) as [status_code body|]; [|done]. simpl.
  split; intros Hs.
  - replace ((200 <=? status_code)%Z && (status_code <? 300)%Z)
      with false; [done|].
    symmetry. apply andb_false_iff. rewrite Z.leb_gt, Z.ltb_ge. lia.
  - replace ((200 <=? status_code)%Z && (status_code <? 300)%Z)
      with true; [done|].
    symmetry. apply andb_true_iff. rewrite Z.leb_le, Z.ltb_lt. lia.
Qed.

(** X19.  The claims-only verifier accepts every token that shows what
    it asks for: a payload whose [exp] is an integer after the current
    time, whose [iss] is one of the configured issuers, whose [aud] is
    the configured (non-empty) audience, whose [scp] string has every
    required scope among its words, and whose client identifier (the
    truthy one of [appid] and [azp], if any) is a string.  The access
    token then carries the token, its payload, that client identifier and
    exactly the words of [scp] as scopes. *)
Theorem verify_token_accepts jws_payload int_of_str int_str_ok self now tok
    payload exp iss scp :
  tok ≠ "" →
  jws_payload tok = Some payload →
  payload !! "exp" = Some (PyInt exp) →
  (now < inject_Z exp)%Q →
  payload !! "iss" = Some (PyStr iss) →
  iss ∈ Opaque.issuers self →
  payload !! "aud" = Some (PyStr (Opaque.audience self)) →
  Opaque.audience self ≠ "" →
  payload !! "scp" = Some (PyStr scp) →
  (∀ r, r ∈ Opaque.required_scopes self → r ∈ str_split scp) →
  is_str (py_or (py_or (dict_get payload "appid") (dict_get payload "azp"))
                (PyStr "unknown")) = true →
  ∃ p, Opaque.verify_token jws_payload int_of_str int_str_ok self now tok
       = Returns (Some p)
     ∧ token p = tok
     ∧ claims p = payload
     ∧ expires_at p = PyInt exp
     ∧ client_id p = py_or (py_or (dict_get payload "appid")
                                  (dict_get payload "azp"))
                           (PyStr "unknown")
     ∧ ∀ s, s ∈ scopes p ↔ s ∈ str_split scp.
Proof.
  intros Hne Hjws Hexp Hlt Hiss Hin Haud Hnonempty Hscp Hreq Hcid.
  assert (PyJWT.decode jws_payload int_of_str tok (Opaque.audience self)
            (Opaque.issuers self) Opaque.decode_options now
          = Returns payload) as Hdec.
  { unfold PyJWT.decode. rewrite Hjws. simpl. unfold dict_get.
    rewrite Hexp, Haud, Hiss. simpl.
    rewrite (proj2 (dict_contains_true "exp" payload)) by eauto.
    unfold PyJWT.validate_exp, dict_getitem. rewrite Hexp. simpl.
    replace (Qle_bool (inject_Z exp) now) with false.
    2:{ symmetry. apply not_true_iff_false. intros H.
        apply Qle_bool_iff in H. by apply Qle_not_lt in H. }
    simpl. unfold PyJWT.validate_iss. rewrite Hiss.
    rewrite bool_decide_eq_true_2 by done. simpl.
    unfold PyJWT.validate_aud, dict_get. rewrite Haud. simpl.
    apply truthy_str_true in Hnonempty. simpl in Hnonempty.
    rewrite Hnonempty. simpl. by rewrite String.eqb_refl. }
  rewrite (verify_token_decoded _ _ _ _ _ _ _ Hne Hdec).
  unfold dict_get_default. rewrite Hscp. simpl.
  rewrite bool_decide_eq_true_2.
  2:{ apply difference_empty_subseteq. intros r Hr.
      apply elem_of_list_to_set in Hr. by apply elem_of_list_to_set, Hreq. }
  simpl. unfold dict_getitem. rewrite Hexp. simpl.
  unfold AccessToken_init. rewrite Hcid. simpl.
  eexists. split; [reflexivity|]. simpl.
  repeat split; try done.
  - intros Hs. by apply elem_of_elements, elem_of_list_to_set in Hs.
  - intros Hs. by apply elem_of_elements, elem_of_list_to_set.
Qed.

Lemma verify_token_accepts_witness :
  ∃ p, Opaque.verify_token Opaque.example_payload Opaque.example_int_of_str
    Opaque.example_int_str_ok
         (Opaque.token_verifier "T") (1000 # 1) "both-scopes"
       = Returns (Some p)
     ∧ token p = "both-scopes"
     ∧ claims p
       = Opaque.example_claims (Some (PyStr "User.Read Mail.Read"))
     ∧ expires_at p = PyInt 2000
     ∧ client_id p
       = py_or (py_or (dict_get
                         (Opaque.example_claims
                            (Some (PyStr "User.Read Mail.Read")))
                         "appid")
                      (dict_get
                         (Opaque.example_claims
                            (Some (PyStr "User.Read Mail.Read")))
                         "azp"))
               (PyStr "unknown")
     ∧ ∀ s, s ∈ scopes p ↔ s ∈ str_split "User.Read Mail.Read".
Proof.
  apply (verify_token_accepts Opaque.example_payload
           Opaque.example_int_of_str Opaque.example_int_str_ok
           (Opaque.token_verifier "T") (1000 # 1) "both-scopes"
           (Opaque.example_claims (Some (PyStr "User.Read Mail.Read")))
           2000 "https://sts.windows.net/T/" "User.Read Mail.Read").
  - discriminate.
  - reflexivity.
  - vm_compute. reflexivity.
  - reflexivity.
  - vm_compute. reflexivity.
  - apply (bool_decide_unpack _). vm_compute. exact I.
  - vm_compute. reflexivity.
  - discriminate.
  - vm_compute. reflexivity.
  - intros r Hr. apply list_elem_of_In in Hr. apply list_elem_of_In.
    vm_compute in Hr. vm_compute. tauto.
  - vm_compute. reflexivity.
Defined.
